(** * libsigrokdecode: the Decoder type's [put] and [register]

    A shallow embedding of [type_decoder.c]: the four payload converters
    ([convert_annotation], [convert_binary], [convert_meta],
    [convert_packet]), the dispatcher [Decoder_put] and the output
    registry [Decoder_register], followed by the properties of the
    output-dispatch core that hold of them.

    Conventions of the embedding.
    - C integers are [Z]; each conversion between widths is written out
      ([to_int], [to_guint], [PyLong_AsLong]).  The data model is LP64:
      [int] and [guint] have 32 bits, [long] and [long long] 64.
    - A [PyObject *] is a [ptr] ([option PyObject]), [NULL] is [None].
    - The C functions run in the monad [M]: they thread [srd_state] (the
      instance table, CPython's error indicator, the allocator's coming
      answers, the reads outside [OUTPUT_TYPES] that fault, and the
      trace of what was done to the outside) and end in [Ret] or, where
      the process faults (a dereferenced [NULL], a read of memory that
      is not mapped), in [Crash].
    - An early [return] of the C code is the [then] arm of an [if] whose
      [else] arm is the rest of the function.
    - A Python [str] is the [string] of its code points, which the model
      takes below 256 (ASCII is below 128); [bytes] is a list of bytes. *)

From Stdlib Require Import ZArith List String Ascii Bool Lia.
From stdpp Require Import base option list gmap strings.

Local Open Scope string_scope.
Local Open Scope list_scope.
Local Open Scope Z_scope.

(** ** C integers *)

Definition INT_MIN : Z := - 2 ^ 31.
Definition INT_MAX : Z := 2 ^ 31 - 1.
Definition LONG_MIN : Z := - 2 ^ 63.
Definition LONG_MAX : Z := 2 ^ 63 - 1.

(** Conversion to a signed 32-bit [int], as gcc and clang define it for
    a value out of range: reduction modulo 2^32. *)
Definition to_int (n : Z) : Z := (n + 2 ^ 31) mod 2 ^ 32 - 2 ^ 31.

(** Conversion to [guint] (unsigned 32 bits). *)
Definition to_guint (n : Z) : Z := n mod 2 ^ 32.

Definition fits_int (n : Z) : Prop := INT_MIN <= n <= INT_MAX.
Definition fits_long (n : Z) : Prop := LONG_MIN <= n <= LONG_MAX.

Definition fits_longb (n : Z) : bool := (LONG_MIN <=? n) && (n <=? LONG_MAX).

(** ** Python objects *)

(** A C [double], kept as its IEEE 754 binary64 bit pattern: the code
    only moves it from the Python float into the GVariant. *)
Record double := { binary64 : Z }.

Inductive PyTypeObject :=
| PyLong_Type | PyFloat_Type | PyBool_Type | PyUnicode_Type | PyBytes_Type
| PyList_Type | PyTuple_Type | PyNone_Type | PyType_Type.

#[warnings="-register-all"]
Inductive PyObject :=
| PyNone
| PyBool (b : bool)
| PyLong (n : Z)
| PyFloat (ob_fval : double)
| PyUnicode (s : string)
| PyBytes (ob_sval : list Byte.byte)
| PyList (ob_item : list PyObject)
| PyTuple (ob_item : list PyObject)
| PyTypeRef (t : PyTypeObject).

(** A [PyObject *]. *)
Definition ptr := option PyObject.
Definition NULL : ptr := None.

Definition Py_TYPE (o : PyObject) : PyTypeObject :=
  match o with
  | PyNone => PyNone_Type
  | PyBool _ => PyBool_Type
  | PyLong _ => PyLong_Type
  | PyFloat _ => PyFloat_Type
  | PyUnicode _ => PyUnicode_Type
  | PyBytes _ => PyBytes_Type
  | PyList _ => PyList_Type
  | PyTuple _ => PyTuple_Type
  | PyTypeRef _ => PyType_Type
  end.

(** The type checks the code uses, on an object.  [bool] is a subclass
    of [int], so [PyLong_Check] accepts it. *)
Definition is_long (o : PyObject) : bool :=
  match o with PyLong _ | PyBool _ => true | _ => false end.
Definition is_float (o : PyObject) : bool :=
  match o with PyFloat _ => true | _ => false end.
Definition is_unicode (o : PyObject) : bool :=
  match o with PyUnicode _ => true | _ => false end.
Definition is_bytes (o : PyObject) : bool :=
  match o with PyBytes _ => true | _ => false end.
Definition is_list (o : PyObject) : bool :=
  match o with PyList _ => true | _ => false end.
Definition is_tuple (o : PyObject) : bool :=
  match o with PyTuple _ => true | _ => false end.

(** The mathematical value of a Python integer. *)
Definition long_value (o : PyObject) : Z :=
  match o with
  | PyLong n => n
  | PyBool b => if b then 1 else 0
  | _ => 0
  end.

Inductive PyExc :=
| PyExc_TypeError | PyExc_OverflowError | PyExc_SystemError
| PyExc_IndexError | PyExc_UnicodeEncodeError | PyExc_MemoryError
| PyExc_Exception | PyExc_AttributeError.

(** ** The library's data *)

(** The structs and enumerations are declared in [libsigrokdecode.h],
    which is not among the sources: each record below has the fields
    that [type_decoder.c] reads or writes, under their names. *)

Inductive srd_status := SRD_OK | SRD_ERR_MALLOC | SRD_ERR_PYTHON.

Definition srd_status_eqb (a b : srd_status) : bool :=
  match a, b with
  | SRD_OK, SRD_OK | SRD_ERR_MALLOC, SRD_ERR_MALLOC
  | SRD_ERR_PYTHON, SRD_ERR_PYTHON => true
  | _, _ => false
  end.

(** The output types, numbered as the table [OUTPUT_TYPES] of the source
    is indexed by them. *)
Definition OUTPUT_TYPES : list string :=
  [ "OUTPUT_ANN"; "OUTPUT_PYTHON"; "OUTPUT_BINARY"; "OUTPUT_META";
    "OUTPUT_PACKET" ].

Definition SRD_OUTPUT_ANN : Z := 0.
Definition SRD_OUTPUT_PYTHON : Z := 1.
Definition SRD_OUTPUT_BINARY : Z := 2.
Definition SRD_OUTPUT_META : Z := 3.
Definition SRD_OUTPUT_PACKET : Z := 4.

Inductive GVariantType := G_VARIANT_TYPE_INT64 | G_VARIANT_TYPE_DOUBLE.

Inductive GVariant :=
| g_variant_new_int64 (v : Z)
| g_variant_new_double (d : double).

Record srd_pd_output := {
  pdo_id : Z;
  output_type : Z;
  pdo_di : nat;                       (* the owning instance, by address *)
  proto_id : string;
  meta_type : option GVariantType;    (* [None]: left as allocated *)
  meta_name : option string;
  meta_descr : option string;
}.

Record srd_proto_data_annotation := {
  ann_class : Z;
  ann_text : list string;
}.

Record srd_proto_data_binary := {
  bin_class : Z;
  size : Z;
  bin_data : list Byte.byte;
}.

Record srd_proto_data_packet := {
  pkt_ann_class : Z;
  packet_output_type : Z;
  packet_num : Z;
  field_name : option string;         (* [None]: the C [NULL] *)
  field_value : option string;
}.

(** What [pdata->data] points to. *)
Inductive proto_payload :=
| data_NULL
| data_annotation (pda : srd_proto_data_annotation)
| data_python (py_data : PyObject)
| data_binary (pdb : srd_proto_data_binary)
| data_meta (v : GVariant)
| data_packet (pdp : srd_proto_data_packet).

Record srd_proto_data := {
  start_sample : Z;
  end_sample : Z;
  pdo : srd_pd_output;
  data : proto_payload;
}.

Definition set_data (pdata : srd_proto_data) (d : proto_payload)
  : srd_proto_data :=
  {| start_sample := start_sample pdata; end_sample := end_sample pdata;
     pdo := pdo pdata; data := d |}.

(** A frontend callback: the C function and its [cb_data], by address. *)
Record srd_pd_callback := {
  cb_output_type : Z;
  cb : nat;
  cb_data : nat;
}.

Record srd_session := {
  callbacks : list srd_pd_callback;
}.

(** The decoder definition.  Its class lists are the [GSList]s
    [annotations] and [binary]; an entry is kept as the class's name. *)
Record srd_decoder := {
  name : string;
  annotations : list string;
  binary : list string;
}.

(** The Python side of a decoder instance: what calling its [decode]
    method with [(start, end, data)] does, [None] for a normal return and
    [Some e] for a raised exception. *)
Record PyInst := {
  py_decode : Z -> Z -> PyObject -> option PyExc;
}.

#[warnings="-register-all"]
Inductive srd_decoder_inst := mk_decoder_inst {
  decoder : srd_decoder;
  sess : srd_session;
  inst_id : string;
  py_inst : PyInst;
  pd_output : list srd_pd_output;
  next_di : list srd_decoder_inst;
}.

Definition set_pd_output (di : srd_decoder_inst) (l : list srd_pd_output)
  : srd_decoder_inst :=
  mk_decoder_inst (decoder di) (sess di) (inst_id di) (py_inst di) l
    (next_di di).

(** ** The state the C code runs in *)

Inductive log_level := SRD_LOG_ERR | SRD_LOG_DBG | SRD_LOG_SPEW.

(** What a call does to the outside, in the order it happens.  A log
    line keeps its format string; the arguments are not rendered. *)
Inductive event :=
| ev_log (lvl : log_level) (fmt : string)
| ev_decode (inst : string) (start_sample end_sample : Z) (py_data : PyObject)
| ev_sink (cb : srd_pd_callback) (pdata : srd_proto_data).

Record srd_state := {
  di_list : gmap nat srd_decoder_inst;  (* live instances, by [self] *)
  py_err : option PyExc;                (* CPython's error indicator *)
  oom : list bool;                      (* coming [g_try_malloc] answers,
                                           [true]: out of memory *)
  faults : Z -> bool;                   (* a read of [OUTPUT_TYPES] at this
                                           index, outside the table, hits
                                           memory that is not mapped *)
  trace : list event;
}.

Inductive outcome (A : Type) :=
| Ret (a : A) (st : srd_state)
| Crash (st : srd_state).
Arguments Ret {A} a st.
Arguments Crash {A} st.

Definition M (A : Type) : Type := srd_state -> outcome A.

Definition ret {A} (a : A) : M A := fun st => Ret a st.

Definition bind {A B} (m : M A) (k : A -> M B) : M B :=
  fun st => match m st with
            | Ret a st' => k a st'
            | Crash st' => Crash st'
            end.

Definition crash {A} : M A := fun st => Crash st.

Declare Scope srd_scope.
Delimit Scope srd_scope with srd.
Notation "'do' x <- m ; k" := (bind m (fun x => k))
  (at level 10, x name, m at level 100, k at level 200) : srd_scope.
Notation "m ;; k" := (bind m (fun _ => k))
  (at level 100, k at level 200, right associativity) : srd_scope.
Local Open Scope srd_scope.

(** The state an outcome ends in. *)
Definition final_state {A} (o : outcome A) : srd_state :=
  match o with Ret _ st => st | Crash st => st end.

Definition returned {A} (o : outcome A) : option A :=
  match o with Ret a _ => Some a | Crash _ => None end.

Definition set_trace (st : srd_state) (t : list event) : srd_state :=
  {| di_list := di_list st; py_err := py_err st; oom := oom st;
     faults := faults st; trace := t |}.
Definition set_py_err (st : srd_state) (e : option PyExc) : srd_state :=
  {| di_list := di_list st; py_err := e; oom := oom st;
     faults := faults st; trace := trace st |}.
Definition set_oom (st : srd_state) (o : list bool) : srd_state :=
  {| di_list := di_list st; py_err := py_err st; oom := o;
     faults := faults st; trace := trace st |}.
Definition set_di_list (st : srd_state) (m : gmap nat srd_decoder_inst)
  : srd_state :=
  {| di_list := m; py_err := py_err st; oom := oom st;
     faults := faults st; trace := trace st |}.

Definition emit (e : event) : M unit :=
  fun st => Ret tt (set_trace st (trace st ++ [e])).

Definition srd_err (fmt : string) : M unit := emit (ev_log SRD_LOG_ERR fmt).
Definition srd_dbg (fmt : string) : M unit := emit (ev_log SRD_LOG_DBG fmt).
Definition srd_spew (fmt : string) : M unit := emit (ev_log SRD_LOG_SPEW fmt).

(** ** CPython, as far as the code calls it *)

Definition PyErr_Set (e : PyExc) : M unit :=
  fun st => Ret tt (set_py_err st (Some e)).

Definition PyErr_Occurred : M bool :=
  fun st => Ret (bool_decide (is_Some (py_err st))) st.

(** The [Py*_Check] macros read the object's type: on [NULL] they
    dereference a null pointer. *)
Definition Py_Check (p : PyObject -> bool) (op : ptr) : M bool :=
  match op with
  | Some o => ret (p o)
  | None => crash
  end.

Definition PyLong_Check := Py_Check is_long.
Definition PyFloat_Check := Py_Check is_float.
Definition PyUnicode_Check := Py_Check is_unicode.
Definition PyBytes_Check := Py_Check is_bytes.
Definition PyList_Check := Py_Check is_list.
Definition PyTuple_Check := Py_Check is_tuple.

(** [PyList_Size] and [PyList_GetItem] check their argument: anything
    but a list is a bad internal call ([SystemError]), an index out of
    range an [IndexError]. *)
Definition PyList_Size (op : ptr) : M Z :=
  do is_l <- PyList_Check op;
  match op with
  | Some (PyList items) => ret (Z.of_nat (length items))
  | _ => PyErr_Set PyExc_SystemError ;; ret (-1)
  end.

Definition PyList_GetItem (op : ptr) (i : nat) : M ptr :=
  do is_l <- PyList_Check op;
  match op with
  | Some (PyList items) =>
      match items !! i with
      | Some o => ret (Some o)
      | None => PyErr_Set PyExc_IndexError ;; ret NULL
      end
  | _ => PyErr_Set PyExc_SystemError ;; ret NULL
  end.

Definition PyTuple_Size (op : ptr) : M Z :=
  do is_t <- PyTuple_Check op;
  match op with
  | Some (PyTuple items) => ret (Z.of_nat (length items))
  | _ => PyErr_Set PyExc_SystemError ;; ret (-1)
  end.

Definition PyTuple_GetItem (op : ptr) (i : nat) : M ptr :=
  do is_t <- PyTuple_Check op;
  match op with
  | Some (PyTuple items) =>
      match items !! i with
      | Some o => ret (Some o)
      | None => PyErr_Set PyExc_IndexError ;; ret NULL
      end
  | _ => PyErr_Set PyExc_SystemError ;; ret NULL
  end.

(** [PyLong_AsLong]: the value when it fits a C [long]; [-1] with an
    [OverflowError] when it does not, with a [SystemError] on [NULL] and
    with a [TypeError] on what is no integer. *)
Definition PyLong_AsLong (op : ptr) : M Z :=
  match op with
  | None => PyErr_Set PyExc_SystemError ;; ret (-1)
  | Some o =>
      if is_long o then
        if fits_longb (long_value o) then ret (long_value o)
        else PyErr_Set PyExc_OverflowError ;; ret (-1)
      else PyErr_Set PyExc_TypeError ;; ret (-1)
  end.

(** [long long] has the width of [long] here. *)
Definition PyLong_AsLongLong (op : ptr) : M Z := PyLong_AsLong op.

(** [PyFloat_AsDouble], which the code calls on floats only: the
    float's value. *)
Definition PyFloat_AsDouble (op : ptr) : M double :=
  match op with
  | Some (PyFloat d) => ret d
  | _ => PyErr_Set PyExc_TypeError ;; ret {| binary64 := -1 |}
  end.

Definition PyBytes_Size (op : ptr) : M Z :=
  do is_b <- PyBytes_Check op;
  match op with
  | Some (PyBytes b) => ret (Z.of_nat (length b))
  | _ => PyErr_Set PyExc_TypeError ;; ret (-1)
  end.

(** [PyBytes_AsStringAndSize] with a length pointer: the buffer and its
    length, or [-1] with a [TypeError]. *)
Definition PyBytes_AsStringAndSize (op : ptr) : M (Z * list Byte.byte * Z) :=
  do is_b <- PyBytes_Check op;
  match op with
  | Some (PyBytes b) => ret (0, b, Z.of_nat (length b))
  | _ => PyErr_Set PyExc_TypeError ;; ret (-1, [], 0)
  end.

Definition is_ascii (c : ascii) : bool := (nat_of_ascii c <? 128)%nat.

Fixpoint all_ascii (s : string) : bool :=
  match s with
  | EmptyString => true
  | String c s' => is_ascii c && all_ascii s'
  end.

(** [PyUnicode_AsASCIIString]: a new bytes object, or [NULL] with a
    [UnicodeEncodeError] when a character is not ASCII. *)
Definition PyUnicode_AsASCIIString (op : ptr) : M (option string) :=
  match op with
  | Some (PyUnicode s) =>
      if all_ascii s then ret (Some s)
      else PyErr_Set PyExc_UnicodeEncodeError ;; ret None
  | _ => PyErr_Set PyExc_TypeError ;; ret None
  end.

(** [PyBytes_AsString] starts with [PyBytes_Check]: on [NULL] it
    dereferences a null pointer. *)
Definition PyBytes_AsString (bytes : option string) : M string :=
  match bytes with
  | Some s => ret s
  | None => crash
  end.

(** ** GLib, as far as the code calls it *)

(** A C string ends at its first NUL. *)
Fixpoint c_str (s : string) : string :=
  match s with
  | EmptyString => EmptyString
  | String c s' => if (nat_of_ascii c =? 0)%nat then EmptyString
                   else String c (c_str s')
  end.

Definition g_strdup (s : string) : string := c_str s.

(** [g_slist_nth] and [g_slist_nth_data] take a [guint] position. *)
Definition g_slist_nth {A} (l : list A) (n : Z) : option A :=
  l !! Z.to_nat (to_guint n).
Definition g_slist_nth_data {A} (l : list A) (n : Z) : option A :=
  g_slist_nth l n.

Definition g_slist_length {A} (l : list A) : Z :=
  to_guint (Z.of_nat (length l)).

Definition g_slist_append {A} (l : list A) (x : A) : list A := l ++ [x].

(** [g_try_malloc] and [g_try_malloc0]: [false] stands for [NULL].  The
    answer is the next one of [oom]; with none left there is memory.
    ([g_malloc], [g_strdup] and [g_variant_new_*] do not return without
    memory: they are taken to succeed.) *)
Definition g_try_malloc : M bool :=
  fun st => match oom st with
            | [] => Ret true st
            | failed :: rest => Ret (negb failed) (set_oom st rest)
            end.

(** C's [!] and short-circuit [&&] on conditions with effects. *)
Definition c_not (c : M bool) : M bool := do b <- c; ret (negb b).
Definition c_and (c1 c2 : M bool) : M bool :=
  do b <- c1; if b then c2 else ret false.

(** A load from outside an array.  The behaviour is undefined: on the
    library's targets the load yields the word that lies at the address
    when the address is mapped, and the process faults when it is not.
    Which of the two it is the code cannot tell; it is the state's
    [faults].  The word found is no entry of the array: [None]. *)
Definition wild_read {A} (i : Z) : M (option A) :=
  fun st => if faults st i then Crash st else Ret None st.

(** Reading [table[i]] with an [int] index, which the code does not
    check against the bounds of the array. *)
Definition array_read {A} (table : list A) (i : Z) : M (option A) :=
  if i <? 0 then wild_read i
  else match table !! Z.to_nat i with
       | Some x => ret (Some x)
       | None => wild_read i
       end.

(** ** Functions of the library outside [type_decoder.c] *)

(** Modelled from the spec: the loop of [py_strseq_to_char] over the
    members of the sequence, each of which "must be a string"; it
    answers the strings, or nothing when a member is no string. *)
Fixpoint strseq (items : list PyObject) : option (list string) :=
  match items with
  | [] => Some []
  | PyUnicode s :: rest =>
      match strseq rest with
      | Some out => Some (s :: out)
      | None => None
      end
  | _ :: _ => None
  end.

(** Modelled from the spec: [py_strseq_to_char] (the library's [util.c]
    is not among the sources).  "element 1 must be a sequence of strings
    (rejecting any non-string member fails the whole conversion)", and
    on success the event has "the exact text sequence". *)
Definition py_strseq_to_char (py_strseq : ptr) : M (srd_status * list string) :=
  match py_strseq with
  | Some (PyList items) | Some (PyTuple items) =>
      match strseq items with
      | Some out => ret (SRD_OK, out)
      | None => ret (SRD_ERR_PYTHON, [])
      end
  | _ => ret (SRD_ERR_PYTHON, [])
  end.

(** Modelled from the spec: [srd_pd_output_callback_find] (the session
    code is not among the sources).  The callback registry is a
    "per-session mapping from output kind to zero-or-one registered
    frontend sink"; the first entry of the kind is the one found. *)
Definition srd_pd_output_callback_find (sess : srd_session) (output_type : Z)
  : option srd_pd_callback :=
  List.find (fun c => cb_output_type c =? output_type) (callbacks sess).

(** Modelled from the spec: [srd_inst_find_by_obj] (the instance code is
    not among the sources).  "Resolve the calling instance (must be a
    known, live instance)": the instance whose Python object is [self],
    if there is one. *)
Definition srd_inst_find_by_obj (self : nat) : M (option srd_decoder_inst) :=
  fun st => Ret (di_list st !! self) st.

(** Modelled from the spec: [srd_exception_catch] (the library's
    [exception.c] is not among the sources).  "a failure from one
    downstream instance is caught, logged with the failing instance's
    identity": the pending exception is taken off the error indicator
    and reported as an error line. *)
Definition srd_exception_catch (fmt : string) : M unit :=
  fun st => Ret tt (set_trace (set_py_err st None)
                      (trace st ++ [ev_log SRD_LOG_ERR fmt])).

(** The header's two packet output types.  [libsigrokdecode.h] is not
    among the sources, so their values are left open; as labels of one
    [switch] they differ. *)
Class srd_packet_types := {
  SRD_PACKET_LOCATION : Z;
  SRD_PACKET_FIELD : Z;
  packet_types_differ : SRD_PACKET_LOCATION <> SRD_PACKET_FIELD;
}.

(** ** The converters *)

Definition convert_annotation (di : srd_decoder_inst) (obj : ptr)
    (pdata : srd_proto_data) : M (srd_status * srd_proto_data) :=
  (* Should be a list of [annotation class, [string, ...]]. *)
  do no_seq <- c_and (c_not (PyList_Check obj)) (c_not (PyTuple_Check obj));
  if no_seq then
    srd_err "Protocol decoder %s submitted %s instead of list." ;;
    ret (SRD_ERR_PYTHON, pdata)
  else
  (* Should have 2 elements. *)
  do n <- PyList_Size obj;
  if negb (n =? 2) then
    do n' <- PyList_Size obj;
    srd_err "Protocol decoder %s submitted annotation list with %d elements instead of 2" ;;
    ret (SRD_ERR_PYTHON, pdata)
  else
  (* The first element should be an integer matching a previously
     registered annotation class. *)
  do py_tmp <- PyList_GetItem obj 0;
  do no_int <- c_not (PyLong_Check py_tmp);
  if no_int then
    srd_err "Protocol decoder %s submitted annotation list, but first element was not an integer." ;;
    ret (SRD_ERR_PYTHON, pdata)
  else
  do v <- PyLong_AsLong py_tmp;
  let ann_class := to_int v in
  match g_slist_nth_data (annotations (decoder di)) ann_class with
  | None =>
    srd_err "Protocol decoder %s submitted data to unregistered annotation class %d." ;;
    ret (SRD_ERR_PYTHON, pdata)
  | Some _ =>
  (* Second element must be a list. *)
  do py_tmp <- PyList_GetItem obj 1;
  do no_list <- c_not (PyList_Check py_tmp);
  if no_list then
    srd_err "Protocol decoder %s submitted annotation list, but second element was not a list." ;;
    ret (SRD_ERR_PYTHON, pdata)
  else
  do r <- py_strseq_to_char py_tmp;
  if negb (srd_status_eqb r.1 SRD_OK) then
    srd_err "Protocol decoder %s submitted annotation list, but second element was malformed." ;;
    ret (SRD_ERR_PYTHON, pdata)
  else
  do pda <- g_try_malloc;
  if negb pda then ret (SRD_ERR_MALLOC, pdata)
  else
  ret (SRD_OK,
       set_data pdata
         (data_annotation {| ann_class := ann_class; ann_text := r.2 |}))
  end.

Definition convert_binary (di : srd_decoder_inst) (obj : ptr)
    (pdata : srd_proto_data) : M (srd_status * srd_proto_data) :=
  (* Should be a tuple of (binary class, bytes). *)
  do no_tuple <- c_not (PyTuple_Check obj);
  if no_tuple then
    srd_err "Protocol decoder %s submitted SRD_OUTPUT_BINARY with %s instead of tuple." ;;
    ret (SRD_ERR_PYTHON, pdata)
  else
  (* Should have 2 elements. *)
  do n <- PyTuple_Size obj;
  if negb (n =? 2) then
    do n' <- PyList_Size obj;
    srd_err "Protocol decoder %s submitted SRD_OUTPUT_BINARY tuple with %d elements instead of 2" ;;
    ret (SRD_ERR_PYTHON, pdata)
  else
  (* The first element should be an integer. *)
  do py_tmp <- PyTuple_GetItem obj 0;
  do no_int <- c_not (PyLong_Check py_tmp);
  if no_int then
    srd_err "Protocol decoder %s submitted SRD_OUTPUT_BINARY tuple, but first element was not an integer." ;;
    ret (SRD_ERR_PYTHON, pdata)
  else
  do v <- PyLong_AsLong py_tmp;
  let bin_class := to_int v in
  match g_slist_nth_data (binary (decoder di)) bin_class with
  | None =>
    srd_err "Protocol decoder %s submitted SRD_OUTPUT_BINARY with unregistered binary class %d." ;;
    ret (SRD_ERR_PYTHON, pdata)
  | Some class_name =>
  (* Second element should be bytes. *)
  do py_tmp <- PyTuple_GetItem obj 1;
  do no_bytes <- c_not (PyBytes_Check py_tmp);
  if no_bytes then
    srd_err "Protocol decoder %s submitted SRD_OUTPUT_BINARY tuple, but second element was not bytes." ;;
    ret (SRD_ERR_PYTHON, pdata)
  else
  (* Consider an empty set of bytes a bug. *)
  do len <- PyBytes_Size py_tmp;
  if len =? 0 then
    srd_err "Protocol decoder %s submitted SRD_OUTPUT_BINARY with empty data set." ;;
    ret (SRD_ERR_PYTHON, pdata)
  else
  do pdb <- g_try_malloc;
  if negb pdb then ret (SRD_ERR_MALLOC, pdata)
  else
  do r <- PyBytes_AsStringAndSize py_tmp;
  let '(rc, buf, size) := r in
  if rc =? -1 then ret (SRD_ERR_PYTHON, pdata)
  else
  do pdb_data <- g_try_malloc;
  if negb pdb_data then ret (SRD_ERR_MALLOC, pdata)
  else
  ret (SRD_OK,
       set_data pdata
         (data_binary {| bin_class := bin_class; size := size;
                         bin_data := buf |}))
  end.

Definition convert_meta (pdata : srd_proto_data) (obj : ptr)
  : M (srd_status * srd_proto_data) :=
  match meta_type (pdo pdata) with
  | Some G_VARIANT_TYPE_INT64 =>
    do no_int <- c_not (PyLong_Check obj);
    if no_int then
      PyErr_Set PyExc_TypeError ;;
      ret (SRD_ERR_PYTHON, pdata)
    else
    do intvalue <- PyLong_AsLongLong obj;
    do failed <- PyErr_Occurred;
    if failed then ret (SRD_ERR_PYTHON, pdata)
    else ret (SRD_OK, set_data pdata (data_meta (g_variant_new_int64 intvalue)))
  | Some G_VARIANT_TYPE_DOUBLE =>
    do no_float <- c_not (PyFloat_Check obj);
    if no_float then
      PyErr_Set PyExc_TypeError ;;
      ret (SRD_ERR_PYTHON, pdata)
    else
    do dvalue <- PyFloat_AsDouble obj;
    do failed <- PyErr_Occurred;
    if failed then ret (SRD_ERR_PYTHON, pdata)
    else ret (SRD_OK, set_data pdata (data_meta (g_variant_new_double dvalue)))
  | None => ret (SRD_OK, pdata)
  end.

(** What [PyArg_ParseTuple] and [PyArg_ParseTupleAndKeywords] hand back:
    the C values, or a failure with the exception they raised. *)
Inductive parsed (A : Type) :=
| ParseError (e : PyExc)
| Parsed (a : A).
Arguments ParseError {A} e.
Arguments Parsed {A} a.

(** The values of the format [KKiO]. *)
Record put_args := {
  put_start_sample : Z;     (* uint64_t *)
  put_end_sample : Z;       (* uint64_t *)
  put_output_id : Z;        (* int *)
  put_py_data : PyObject;
}.

Section Packet.
Context `{srd_packet_types}.

Definition convert_packet (di : srd_decoder_inst) (pdata : srd_proto_data)
    (obj : ptr) : M (srd_status * srd_proto_data) :=
  let finish (ann_class packet_output_type packet_num : Z)
             (field_name field_value : option string) :=
    ret (SRD_OK,
         set_data pdata
           (data_packet {| pkt_ann_class := ann_class;
                           packet_output_type := packet_output_type;
                           packet_num := packet_num;
                           field_name := field_name;
                           field_value := field_value |})) in
  (* Should be a list. *)
  do no_list <- c_not (PyList_Check obj);
  if no_list then
    srd_err "Protocol decoder %s submitted %s instead of list." ;;
    ret (SRD_ERR_PYTHON, pdata)
  else
  (* The first element should be an integer matching a previously
     registered annotation class. *)
  do py_tmp <- PyList_GetItem obj 0;
  do no_int <- c_not (PyLong_Check py_tmp);
  if no_int then
    srd_err "Protocol decoder %s submitted packet output list, but first element was not an integer." ;;
    ret (SRD_ERR_PYTHON, pdata)
  else
  do v <- PyLong_AsLong py_tmp;
  let ann_class := to_int v in
  match g_slist_nth_data (annotations (decoder di)) ann_class with
  | None =>
    srd_err "Protocol decoder %s submitted data to unregistered annotation class %d." ;;
    ret (SRD_ERR_PYTHON, pdata)
  | Some _ =>
  (* Second element must be a packet output type. *)
  do py_tmp <- PyList_GetItem obj 1;
  do no_int <- c_not (PyLong_Check py_tmp);
  if no_int then
    srd_err "Protocol decoder %s submitted packet output list, but second element was not an int." ;;
    ret (SRD_ERR_PYTHON, pdata)
  else
  do v <- PyLong_AsLong py_tmp;
  let packet_output_type := to_int v in
  if packet_output_type =? SRD_PACKET_LOCATION then
    (* List should have 3 elements. *)
    do n <- PyList_Size obj;
    if negb (n =? 3) then
      do n' <- PyList_Size obj;
      srd_err "Protocol decoder %s submitted SRD_PACKET_LOCATION list with %d elements instead of 3" ;;
      ret (SRD_ERR_PYTHON, pdata)
    else
    do py_tmp <- PyList_GetItem obj 2;
    do no_int <- c_not (PyLong_Check py_tmp);
    if no_int then
      srd_err "Protocol decoder %s submitted SRD_PACKET_LOCATION list, but third element was not an int." ;;
      ret (SRD_ERR_PYTHON, pdata)
    else
    do v <- PyLong_AsLong py_tmp;
    finish ann_class packet_output_type (to_int v) None None
  else if packet_output_type =? SRD_PACKET_FIELD then
    (* List should have 5 elements. *)
    do n <- PyList_Size obj;
    if negb (n =? 5) then
      do n' <- PyList_Size obj;
      srd_err "Protocol decoder %s submitted SRD_PACKET_FIELD list with %d elements instead of 5" ;;
      ret (SRD_ERR_PYTHON, pdata)
    else
    do py_tmp <- PyList_GetItem obj 2;
    do no_int <- c_not (PyLong_Check py_tmp);
    if no_int then
      srd_err "Protocol decoder %s submitted SRD_PACKET_FIELD list, but third element was not an int." ;;
      ret (SRD_ERR_PYTHON, pdata)
    else
    do v <- PyLong_AsLong py_tmp;
    let packet_num := to_int v in
    do py_tmp <- PyList_GetItem obj 3;
    do no_str <- c_not (PyUnicode_Check py_tmp);
    if no_str then
      srd_err "Protocol decoder %s submitted SRD_PACKET_FIELD list, but fourth element was not a string." ;;
      ret (SRD_ERR_PYTHON, pdata)
    else
    do py_bytes <- PyUnicode_AsASCIIString py_tmp;
    do s <- PyBytes_AsString py_bytes;
    let field_name := g_strdup s in
    do py_tmp <- PyList_GetItem obj 4;
    do no_str <- c_not (PyUnicode_Check py_tmp);
    if no_str then
      srd_err "Protocol decoder %s submitted SRD_PACKET_FIELD list, but fifth element was not a string." ;;
      ret (SRD_ERR_PYTHON, pdata)
    else
    do py_bytes <- PyUnicode_AsASCIIString py_tmp;
    do s <- PyBytes_AsString py_bytes;
    let field_value := g_strdup s in
    finish ann_class packet_output_type packet_num
      (Some field_name) (Some field_value)
  else
    srd_err "Protocol decoder %s submitted invalid sub type %d for SRD_OUTPUT_PACKET output type." ;;
    ret (SRD_ERR_PYTHON, pdata)
  end.

(** ** [Decoder_put] *)

(** [PyObject_CallMethod(next_di->py_inst, "decode", "KKO", ...)]: the
    call is made, and returns a value or [NULL] with the exception the
    method raised. *)
Definition PyObject_CallMethod_decode (next_di : srd_decoder_inst)
    (start_sample end_sample : Z) (py_data : PyObject) : M ptr :=
  emit (ev_decode (inst_id next_di) start_sample end_sample py_data) ;;
  match py_decode (py_inst next_di) start_sample end_sample py_data with
  | None => ret (Some PyNone)
  | Some e => PyErr_Set e ;; ret NULL
  end.

(** The loop [for (l = di->next_di; l; l = l->next)] of the cases
    [SRD_OUTPUT_PYTHON] and [SRD_OUTPUT_PACKET], which differ in the
    line they log. *)
Fixpoint send_to_stack (fmt : string) (l : list srd_decoder_inst)
    (start_sample end_sample : Z) (py_data : PyObject) : M unit :=
  match l with
  | [] => ret tt
  | next_di :: l' =>
      srd_spew fmt ;;
      do py_res <- PyObject_CallMethod_decode next_di start_sample
                     end_sample py_data;
      (if py_res is None then srd_exception_catch "Calling %s decode(): "
       else ret tt) ;;
      send_to_stack fmt l' start_sample end_sample py_data
  end.

(** [cb->cb(pdata, cb->cb_data)]. *)
Definition call_cb (c : srd_pd_callback) (pdata : srd_proto_data) : M unit :=
  emit (ev_sink c pdata).

Definition Decoder_put (self : nat) (args : parsed put_args) : M ptr :=
  do found <- srd_inst_find_by_obj self;
  match found with
  | None =>
    (* Shouldn't happen. *)
    srd_dbg "put(): self instance not found." ;;
    ret NULL
  | Some di =>
  match args with
  | ParseError e => PyErr_Set e ;; ret NULL
  | Parsed a =>
  let start_sample := put_start_sample a in
  let end_sample := put_end_sample a in
  let output_id := put_output_id a in
  let py_data := put_py_data a in
  match g_slist_nth (pd_output di) output_id with
  | None =>
    srd_err "Protocol decoder %s submitted invalid output ID %d." ;;
    ret NULL
  | Some pdo =>
  do type_name <- array_read OUTPUT_TYPES (output_type pdo);
  srd_spew "Instance %s put %lu-%lu %s on oid %d." ;;
  do allocated <- g_try_malloc;
  if negb allocated then
    srd_err "Failed to g_malloc() struct srd_proto_data." ;;
    ret NULL
  else
  let pdata := {| start_sample := start_sample; end_sample := end_sample;
                  pdo := pdo; data := data_NULL |} in
  (if output_type pdo =? SRD_OUTPUT_ANN then
     (* Annotations are only fed to callbacks. *)
     match srd_pd_output_callback_find (sess di) (output_type pdo) with
     | Some c =>
       do r <- convert_annotation di (Some py_data) pdata;
       if negb (srd_status_eqb r.1 SRD_OK) then ret tt
       else call_cb c r.2
     | None => ret tt
     end
   else if output_type pdo =? SRD_OUTPUT_PYTHON then
     send_to_stack "Sending %d-%d to instance %s" (next_di di)
       start_sample end_sample py_data ;;
     match srd_pd_output_callback_find (sess di) (output_type pdo) with
     | Some c =>
       (* Frontends aren't really supposed to get Python callbacks,
          but it's useful for testing. *)
       call_cb c (set_data pdata (data_python py_data))
     | None => ret tt
     end
   else if output_type pdo =? SRD_OUTPUT_BINARY then
     match srd_pd_output_callback_find (sess di) (output_type pdo) with
     | Some c =>
       do r <- convert_binary di (Some py_data) pdata;
       if negb (srd_status_eqb r.1 SRD_OK) then ret tt
       else call_cb c r.2
     | None => ret tt
     end
   else if output_type pdo =? SRD_OUTPUT_META then
     match srd_pd_output_callback_find (sess di) (output_type pdo) with
     | Some c =>
       do r <- convert_meta pdata (Some py_data);
       if negb (srd_status_eqb r.1 SRD_OK) then ret tt
       else call_cb c r.2
     | None => ret tt
     end
   else if output_type pdo =? SRD_OUTPUT_PACKET then
     (* Packets go up the decoder stack and are also sent to the
        frontend. *)
     send_to_stack "Sending packet %d-%d to instance %s" (next_di di)
       start_sample end_sample py_data ;;
     match srd_pd_output_callback_find (sess di) (output_type pdo) with
     | Some c =>
       do r <- convert_packet di pdata (Some py_data);
       if negb (srd_status_eqb r.1 SRD_OK) then ret tt
       else call_cb c r.2
     | None => ret tt
     end
   else
     srd_err "Protocol decoder %s submitted invalid output type %d.") ;;
  ret (Some PyNone)
  end
  end
  end.

End Packet.

(** ** [Decoder_register] *)

(** The values of the format [i|s(Oss)]: an argument that was not given
    leaves its C variable as initialised. *)
Record register_args := {
  reg_output_type : Z;                            (* int *)
  reg_proto_id : option string;
  reg_meta : option (PyObject * string * string);
}.

Definition Decoder_register (self : nat) (args : parsed register_args)
  : M ptr :=
  do found <- srd_inst_find_by_obj self;
  match found with
  | None => PyErr_Set PyExc_Exception ;; ret NULL
  | Some di =>
  match args with
  | ParseError e => PyErr_Set e ;; ret NULL
  | Parsed a =>
  let output_type := reg_output_type a in
  (* Default to instance id, which defaults to class id. *)
  let proto_id := default (inst_id di) (reg_proto_id a) in
  let meta_type_py : ptr := (fun m => m.1.1) <$> reg_meta a in
  let meta_name := (fun m => m.1.2) <$> reg_meta a in
  let meta_descr := (fun m => m.2) <$> reg_meta a in
  let create (meta_type_gv : option GVariantType) : M ptr :=
    srd_dbg "Instance %s creating new output type %d for %s." ;;
    do allocated <- g_try_malloc;
    if negb allocated then PyErr_Set PyExc_MemoryError ;; ret NULL
    else
    (* pdo_id is just a simple index, nothing is deleted from this
       list anyway. *)
    let is_meta := output_type =? SRD_OUTPUT_META in
    let pdo := {| pdo_id := to_int (g_slist_length (pd_output di));
                  output_type := output_type;
                  pdo_di := self;
                  proto_id := g_strdup proto_id;
                  meta_type := if is_meta then meta_type_gv else None;
                  meta_name := if is_meta then g_strdup <$> meta_name
                               else None;
                  meta_descr := if is_meta then g_strdup <$> meta_descr
                                else None |} in
    (fun st =>
       Ret tt (set_di_list st
                 (<[self := set_pd_output di
                              (g_slist_append (pd_output di) pdo)]>
                    (di_list st)))) ;;
    ret (Some (PyLong (pdo_id pdo))) in
  (* Check if the meta value's type is supported. *)
  if output_type =? SRD_OUTPUT_META then
    match meta_type_py with
    | Some (PyTypeRef PyLong_Type) => create (Some G_VARIANT_TYPE_INT64)
    | Some (PyTypeRef PyFloat_Type) => create (Some G_VARIANT_TYPE_DOUBLE)
    | Some (PyTypeRef _) => PyErr_Set PyExc_TypeError ;; ret NULL
    | Some _ => crash        (* [tp_name] read off what is no type *)
    | None => crash          (* [tp_name] read through [NULL] *)
    end
  else create None
  end
  end.

(** ** What a call is seen to do *)

(** The downstream [decode] calls of a trace, the frontend callbacks of
    a trace, and its error lines, each in the order made. *)
Definition decode_calls (t : list event) : list (string * Z * Z * PyObject) :=
  omap (fun e => match e with
                 | ev_decode i s e' p => Some (i, s, e', p)
                 | _ => None
                 end) t.

Definition sink_calls (t : list event)
  : list (srd_pd_callback * srd_proto_data) :=
  omap (fun e => match e with
                 | ev_sink c pdata => Some (c, pdata)
                 | _ => None
                 end) t.

Definition err_lines (t : list event) : list string :=
  omap (fun e => match e with
                 | ev_log SRD_LOG_ERR fmt => Some fmt
                 | _ => None
                 end) t.

(** The line [Decoder_put] logs once the stream is resolved. *)
Definition put_line : event :=
  ev_log SRD_LOG_SPEW "Instance %s put %lu-%lu %s on oid %d.".

(** A [put] that gets as far as the dispatch on the output type: the
    instance is live, the output id names the stream [pdo], and no
    allocation fails. *)
Definition put_reaches (st : srd_state) (self : nat) (a : put_args)
    (di : srd_decoder_inst) (pdo : srd_pd_output) : Prop :=
  di_list st !! self = Some di /\
  g_slist_nth (pd_output di) (put_output_id a) = Some pdo /\
  oom st = [].

(** The state after [t] more events. *)
Definition logged (st : srd_state) (t : list event) : srd_state :=
  set_trace st (trace st ++ t).

(** [n] successive calls of [register], with the answers in call order. *)
Fixpoint register_each (self : nat) (calls : list register_args)
  : M (list ptr) :=
  match calls with
  | [] => ret []
  | a :: rest =>
      do r <- Decoder_register self (Parsed a);
      do rs <- register_each self rest;
      ret (r :: rs)
  end.

(** A registration [Decoder_register] supports: a meta output names
    [int] or [float] as the type of its values. *)
Definition supported (a : register_args) : Prop :=
  reg_output_type a = SRD_OUTPUT_META ->
  exists t n d, reg_meta a = Some (PyTypeRef t, n, d) /\
                (t = PyLong_Type \/ t = PyFloat_Type).

(** The stream ids [from], [from + 1], ... of [n] registrations. *)
Definition ids (from : Z) (n : nat) : list Z :=
  map (fun i => from + Z.of_nat i) (seq 0 n).

(** [m] takes every state to an [R]-related one, however it ends. *)
Definition frames (R : srd_state -> srd_state -> Prop) {A} (m : M A) : Prop :=
  forall st, R st (final_state (m st)).

(** No downstream [decode] was called between two states. *)
Definition same_decodes (st st' : srd_state) : Prop :=
  decode_calls (trace st') = decode_calls (trace st).

(** The elements of a list or tuple. *)
Definition elements (o : PyObject) : list PyObject :=
  match o with
  | PyList items | PyTuple items => items
  | _ => []
  end.

(** Every integer among the elements of the payload fits a C [long]. *)
Definition longs_fit (o : PyObject) : Prop :=
  forall v, v ∈ elements o -> is_long v = true -> fits_long (long_value v).

(** A log line, as opposed to a call of a decoder or of the frontend. *)
Definition is_log (e : event) : bool :=
  match e with ev_log _ _ => true | _ => false end.

(** Between two states nothing was done to the outside but logging: the
    instances are the same, and the trace is longer by log lines only. *)
Definition only_logs (st st' : srd_state) : Prop :=
  di_list st' = di_list st /\
  exists lines, trace st' = trace st ++ lines /\ forallb is_log lines = true.

(** The event [pdata'] is [pdata] but for its data. *)
Definition same_header (pdata pdata' : srd_proto_data) : Prop :=
  start_sample pdata' = start_sample pdata /\
  end_sample pdata' = end_sample pdata /\
  pdo pdata' = pdo pdata.

(** What was done to the outside between two states: the instances are
    the same, [forwarded] are the [decode] calls made since and
    [delivered] the frontend callbacks called since, each in order. *)
Definition did (forwarded : list (string * Z * Z * PyObject))
    (delivered : list (srd_pd_callback * srd_proto_data))
    (st st' : srd_state) : Prop :=
  di_list st' = di_list st /\
  decode_calls (trace st') = decode_calls (trace st) ++ forwarded /\
  sink_calls (trace st') = sink_calls (trace st) ++ delivered.

(** The event [Decoder_put] allocates for a call on the stream [pdo]. *)
Definition put_pdata (a : put_args) (pdo : srd_pd_output) : srd_proto_data :=
  {| start_sample := put_start_sample a; end_sample := put_end_sample a;
     pdo := pdo; data := data_NULL |}.

(** The [decode] calls that forward the arguments [a] to the instances
    stacked on [di]. *)
Definition put_forwarded (a : put_args) (di : srd_decoder_inst)
  : list (string * Z * Z * PyObject) :=
  map (fun nd => (inst_id nd, put_start_sample a, put_end_sample a,
                  put_py_data a)) (next_di di).

(** Whether the [decode] of the stacked instance [nd] raises on the
    call. *)
Definition raises (start_sample end_sample : Z) (py_data : PyObject)
    (nd : srd_decoder_inst) : bool :=
  match py_decode (py_inst nd) start_sample end_sample py_data with
  | Some _ => true
  | None => false
  end.

(** The error lines of the failures caught while the arguments [a] are
    forwarded to the instances stacked on [di]: one for each instance
    whose [decode] raises. *)
Definition put_caught (a : put_args) (di : srd_decoder_inst) : list string :=
  map (fun _ => "Calling %s decode(): ")
      (List.filter (raises (put_start_sample a) (put_end_sample a)
                      (put_py_data a))
         (next_di di)).

(** What a [put] with the arguments [args] from the instance [self] may
    do to the outside in [st]: nothing; or, when the instance is live and
    the output id names one of its streams, forward to the stacked
    instances if the stream is a Python or a packet one, and call at most
    the callback registered for the stream's type, once, on an event with
    the call's samples and stream. *)
Definition put_may (st : srd_state) (self : nat) (args : parsed put_args)
    (f : list (string * Z * Z * PyObject))
    (d : list (srd_pd_callback * srd_proto_data)) : Prop :=
  f = [] /\ d = [] \/
  exists a di pdo,
    args = Parsed a /\ di_list st !! self = Some di /\
    g_slist_nth (pd_output di) (put_output_id a) = Some pdo /\
    (f = [] /\ output_type pdo <> SRD_OUTPUT_PYTHON /\
       output_type pdo <> SRD_OUTPUT_PACKET \/
     f = put_forwarded a di /\
       (output_type pdo = SRD_OUTPUT_PYTHON \/
        output_type pdo = SRD_OUTPUT_PACKET)) /\
    (d = [] \/
     exists c pd,
       d = [(c, pd)] /\
       srd_pd_output_callback_find (sess di) (output_type pdo) = Some c /\
       same_header (put_pdata a pdo) pd).

(** The character NUL. *)
Definition NUL : ascii := ascii_of_nat 0.

(** ** A decoder stack to run the code on *)

(** Header values for the runs: the two packet output types numbered in
    the order of their names. *)
Definition sample_packet_types : srd_packet_types :=
  {| SRD_PACKET_LOCATION := 0; SRD_PACKET_FIELD := 1;
     packet_types_differ := ltac:(discriminate) |}.

Definition sample_decoder : srd_decoder :=
  {| name := "uart"; annotations := ["rx-data"; "tx-data"];
     binary := ["raw"] |}.

Definition sample_cb (output_type : Z) : srd_pd_callback :=
  {| cb_output_type := output_type; cb := Z.to_nat output_type;
     cb_data := 0%nat |}.

(** A frontend that listens to annotations, binary, meta and packets. *)
Definition sample_session : srd_session :=
  {| callbacks := [ sample_cb SRD_OUTPUT_ANN; sample_cb SRD_OUTPUT_BINARY;
                    sample_cb SRD_OUTPUT_META; sample_cb SRD_OUTPUT_PACKET ] |}.

(** A session without any frontend callback. *)
Definition silent_session : srd_session := {| callbacks := [] |}.

Definition sample_pdo (id output_type : Z) (meta : option GVariantType)
  : srd_pd_output :=
  {| pdo_id := id; output_type := output_type; pdo_di := 1%nat;
     proto_id := "uart"; meta_type := meta;
     meta_name := (fun _ => "bitrate") <$> meta;
     meta_descr := (fun _ => "Bitrate") <$> meta |}.

(** One stream of each kind, and a second meta stream for doubles. *)
Definition sample_outputs : list srd_pd_output :=
  [ sample_pdo 0 SRD_OUTPUT_ANN None;
    sample_pdo 1 SRD_OUTPUT_PYTHON None;
    sample_pdo 2 SRD_OUTPUT_BINARY None;
    sample_pdo 3 SRD_OUTPUT_META (Some G_VARIANT_TYPE_INT64);
    sample_pdo 4 SRD_OUTPUT_PACKET None;
    sample_pdo 5 SRD_OUTPUT_META (Some G_VARIANT_TYPE_DOUBLE) ].

(** Two stacked decoders: the first one's [decode] raises, the second
    one's returns. *)
Definition raising_inst : PyInst :=
  {| py_decode := fun _ _ _ => Some PyExc_TypeError |}.
Definition returning_inst : PyInst :=
  {| py_decode := fun _ _ _ => None |}.

Definition stacked_1 : srd_decoder_inst :=
  mk_decoder_inst sample_decoder sample_session "modbus-1" raising_inst [] [].
Definition stacked_2 : srd_decoder_inst :=
  mk_decoder_inst sample_decoder sample_session "midi-1" returning_inst [] [].

Definition sample_di : srd_decoder_inst :=
  mk_decoder_inst sample_decoder sample_session "uart-1" returning_inst
    sample_outputs [stacked_1; stacked_2].

(** The same instance in a session without callbacks, and a fresh one. *)
Definition silent_di : srd_decoder_inst :=
  mk_decoder_inst sample_decoder silent_session "uart-2" returning_inst
    sample_outputs [stacked_1; stacked_2].
Definition fresh_di : srd_decoder_inst :=
  mk_decoder_inst sample_decoder sample_session "uart-3" returning_inst
    [] [].

(** The state the runs start in: the instances, no exception pending,
    memory to allocate, and the page of [OUTPUT_TYPES] mapped, 512 words
    to either side. *)
Definition sample_st : srd_state :=
  {| di_list := <[1%nat := sample_di]>
                  (<[2%nat := silent_di]> (<[3%nat := fresh_di]> ∅));
     py_err := None; oom := []; faults := fun i => 512 <=? Z.abs i;
     trace := [] |}.

Definition sample_put (output_id : Z) (py_data : PyObject) : put_args :=
  {| put_start_sample := 10; put_end_sample := 20;
     put_output_id := output_id; put_py_data := py_data |}.

(** A field value with a character outside ASCII: the degree sign of
    Latin-1, then [C]. *)
Definition degrees_celsius : string := String (ascii_of_nat 176) "C".

Definition sample_pdata (pdo : srd_pd_output) : srd_proto_data :=
  {| start_sample := 10; end_sample := 20; pdo := pdo; data := data_NULL |}.

(** A registration with the output type alone. *)
Definition sample_register (output_type : Z) : register_args :=
  {| reg_output_type := output_type; reg_proto_id := None; reg_meta := None |}.

(** * Properties *)

(** ** C integers and lists *)

Lemma to_int_fits n : fits_int n -> to_int n = n.
Proof.
  unfold fits_int, to_int, INT_MIN, INT_MAX. intros Hn.
  rewrite Z.mod_small; lia.
Qed.

Lemma to_guint_small n : 0 <= n < 2 ^ 32 -> to_guint n = n.
Proof. intros Hn. unfold to_guint. apply Z.mod_small. lia. Qed.

Lemma to_guint_negative n : INT_MIN <= n < 0 -> to_guint n = n + 2 ^ 32.
Proof.
  unfold INT_MIN, to_guint. intros Hn.
  rewrite <- (Z.mod_add n 1 (2 ^ 32)) by lia.
  rewrite Z.mod_small; lia.
Qed.

Lemma fits_longb_spec n : fits_longb n = true <-> fits_long n.
Proof. unfold fits_longb, fits_long. rewrite andb_true_iff. lia. Qed.

(** Inside the list a position is found as it is. *)
Lemma g_slist_nth_inside {A} (l : list A) n :
  0 <= n < Z.of_nat (length l) -> n <= INT_MAX ->
  g_slist_nth l n = l !! Z.to_nat n.
Proof.
  intros Hn Hmax. unfold g_slist_nth. rewrite to_guint_small; [done|].
  unfold INT_MAX in Hmax. lia.
Qed.

(** An [int] outside a list of at most 2^31 elements is not found. *)
Lemma g_slist_nth_outside {A} (l : list A) n :
  fits_int n -> Z.of_nat (length l) <= 2 ^ 31 ->
  ~ (0 <= n < Z.of_nat (length l)) ->
  g_slist_nth l n = None.
Proof.
  unfold fits_int, INT_MIN, INT_MAX. intros Hn Hlen Hout.
  unfold g_slist_nth. apply lookup_ge_None.
  destruct (Z_lt_le_dec n 0).
  - rewrite to_guint_negative by (unfold INT_MIN; lia). lia.
  - rewrite to_guint_small by lia. lia.
Qed.

Lemma g_slist_length_small {A} (l : list A) :
  Z.of_nat (length l) <= INT_MAX ->
  to_int (g_slist_length l) = Z.of_nat (length l).
Proof.
  unfold INT_MAX. intros Hlen. unfold g_slist_length.
  rewrite to_guint_small by lia.
  apply to_int_fits. unfold fits_int, INT_MIN, INT_MAX. lia.
Qed.

(** ** Framing: what a computation leaves alone *)

Section Frame.
Variable R : srd_state -> srd_state -> Prop.
Hypothesis R_refl : forall st, R st st.
Hypothesis R_trans : forall a b c, R a b -> R b c -> R a c.

Lemma frames_ret {A} (a : A) : frames R (ret a).
Proof. intros st. apply R_refl. Qed.

Lemma frames_crash {A} : frames R (@crash A).
Proof. intros st. apply R_refl. Qed.

Lemma frames_bind {A B} (m : M A) (k : A -> M B) :
  frames R m -> (forall a, frames R (k a)) -> frames R (bind m k).
Proof.
  intros Hm Hk st. unfold bind. specialize (Hm st).
  destruct (m st) as [a st'|st']; simpl in *; [|done].
  eapply R_trans; [exact Hm | apply Hk].
Qed.

End Frame.

Lemma same_decodes_refl st : same_decodes st st.
Proof. reflexivity. Qed.

Lemma same_decodes_trans a b c :
  same_decodes a b -> same_decodes b c -> same_decodes a c.
Proof. unfold same_decodes. congruence. Qed.

Lemma decode_calls_app t1 t2 :
  decode_calls (t1 ++ t2) = decode_calls t1 ++ decode_calls t2.
Proof. apply omap_app. Qed.

Lemma quiet_emit e :
  decode_calls [e] = [] -> frames same_decodes (emit e).
Proof.
  intros He st. unfold same_decodes. simpl.
  rewrite decode_calls_app, He. apply app_nil_r.
Qed.

Lemma quiet_srd_err fmt : frames same_decodes (srd_err fmt).
Proof. by apply quiet_emit. Qed.

Lemma quiet_call_cb c pdata : frames same_decodes (call_cb c pdata).
Proof. by apply quiet_emit. Qed.

Lemma quiet_PyErr_Set e : frames same_decodes (PyErr_Set e).
Proof. intros st. reflexivity. Qed.

Lemma quiet_PyErr_Occurred : frames same_decodes PyErr_Occurred.
Proof. intros st. reflexivity. Qed.

Lemma quiet_g_try_malloc : frames same_decodes g_try_malloc.
Proof. intros st. unfold g_try_malloc. by destruct (oom st). Qed.

Create HintDb quiet.
#[local] Hint Resolve quiet_srd_err quiet_call_cb quiet_PyErr_Set
  quiet_PyErr_Occurred quiet_g_try_malloc : quiet.

(** One step of a framing proof: a rule of the monad, a known
    computation, or a case split on what the code branches on. *)
Ltac quiet_step :=
  match goal with
  | |- frames _ (ret _) => apply frames_ret, same_decodes_refl
  | |- frames _ crash => apply frames_crash, same_decodes_refl
  | |- frames _ (bind _ _) =>
      apply (frames_bind _ same_decodes_trans); [|intros ?]
  | |- frames _ (match ?x with _ => _ end) => destruct x
  | |- frames _ (let '(_, _) := ?x in _) => destruct x
  | |- frames _ _ => solve [auto with quiet]
  end.

Ltac quiet := repeat quiet_step.

Lemma quiet_Py_Check p op : frames same_decodes (Py_Check p op).
Proof. unfold Py_Check. quiet. Qed.

#[local] Hint Resolve quiet_Py_Check : quiet.

Lemma quiet_c_not c : frames same_decodes c -> frames same_decodes (c_not c).
Proof. intros. unfold c_not. quiet. Qed.

Lemma quiet_c_and c1 c2 :
  frames same_decodes c1 -> frames same_decodes c2 ->
  frames same_decodes (c_and c1 c2).
Proof. intros. unfold c_and. quiet. Qed.

#[local] Hint Resolve quiet_c_not quiet_c_and : quiet.

Lemma quiet_PyList_Size op : frames same_decodes (PyList_Size op).
Proof. unfold PyList_Size, PyList_Check. quiet. Qed.

Lemma quiet_PyList_GetItem op i : frames same_decodes (PyList_GetItem op i).
Proof. unfold PyList_GetItem, PyList_Check. quiet. Qed.

Lemma quiet_PyTuple_Size op : frames same_decodes (PyTuple_Size op).
Proof. unfold PyTuple_Size, PyTuple_Check. quiet. Qed.

Lemma quiet_PyTuple_GetItem op i : frames same_decodes (PyTuple_GetItem op i).
Proof. unfold PyTuple_GetItem, PyTuple_Check. quiet. Qed.

Lemma quiet_PyLong_AsLong op : frames same_decodes (PyLong_AsLong op).
Proof. unfold PyLong_AsLong. quiet. Qed.

Lemma quiet_PyFloat_AsDouble op : frames same_decodes (PyFloat_AsDouble op).
Proof. unfold PyFloat_AsDouble. quiet. Qed.

Lemma quiet_PyBytes_Size op : frames same_decodes (PyBytes_Size op).
Proof. unfold PyBytes_Size, PyBytes_Check. quiet. Qed.

Lemma quiet_PyBytes_AsStringAndSize op :
  frames same_decodes (PyBytes_AsStringAndSize op).
Proof. unfold PyBytes_AsStringAndSize, PyBytes_Check. quiet. Qed.

Lemma quiet_PyUnicode_AsASCIIString op :
  frames same_decodes (PyUnicode_AsASCIIString op).
Proof. unfold PyUnicode_AsASCIIString. quiet. Qed.

Lemma quiet_PyBytes_AsString b : frames same_decodes (PyBytes_AsString b).
Proof. unfold PyBytes_AsString. quiet. Qed.

Lemma quiet_py_strseq_to_char op : frames same_decodes (py_strseq_to_char op).
Proof. unfold py_strseq_to_char. quiet. Qed.

#[local] Hint Resolve quiet_PyList_Size quiet_PyList_GetItem quiet_PyTuple_Size
  quiet_PyTuple_GetItem quiet_PyLong_AsLong quiet_PyFloat_AsDouble
  quiet_PyBytes_Size quiet_PyBytes_AsStringAndSize
  quiet_PyUnicode_AsASCIIString quiet_PyBytes_AsString
  quiet_py_strseq_to_char : quiet.

Lemma quiet_convert_annotation di obj pdata :
  frames same_decodes (convert_annotation di obj pdata).
Proof.
  unfold convert_annotation, PyLong_Check, PyList_Check, PyTuple_Check,
    g_slist_nth_data.
  quiet.
Qed.

Lemma quiet_convert_binary di obj pdata :
  frames same_decodes (convert_binary di obj pdata).
Proof.
  unfold convert_binary, PyLong_Check, PyBytes_Check, PyTuple_Check,
    g_slist_nth_data.
  quiet.
Qed.

Lemma quiet_convert_meta pdata obj :
  frames same_decodes (convert_meta pdata obj).
Proof.
  unfold convert_meta, PyLong_Check, PyFloat_Check, PyLong_AsLongLong.
  quiet.
Qed.

Lemma quiet_convert_packet `{srd_packet_types} di pdata obj :
  frames same_decodes (convert_packet di pdata obj).
Proof.
  unfold convert_packet, PyLong_Check, PyUnicode_Check, PyList_Check,
    g_slist_nth_data.
  quiet.
Qed.

Lemma bind_Ret {A B} (m : M A) (k : A -> M B) st a st' :
  m st = Ret a st' -> bind m k st = k a st'.
Proof. unfold bind. by intros ->. Qed.

Lemma g_try_malloc_ok st : oom st = [] -> g_try_malloc st = Ret true st.
Proof. unfold g_try_malloc. by intros ->. Qed.

Lemma array_read_known {A} (table : list A) i x st :
  0 <= i -> table !! Z.to_nat i = Some x ->
  array_read table i st = Ret (Some x) st.
Proof.
  intros Hi Hx. unfold array_read.
  destruct (Z.ltb_spec i 0); [lia|]. by rewrite Hx.
Qed.

Ltac put_begin Hreach Hkind :=
  let Hdi := fresh "Hdi" in
  let Hpdo := fresh "Hpdo" in
  let Hoom := fresh "Hoom" in
  pose proof Hreach as (Hdi & Hpdo & Hoom);
  unfold Decoder_put, srd_inst_find_by_obj;
  unfold bind at 1; rewrite Hdi, Hpdo, ?Hkind;
  erewrite bind_Ret by (apply array_read_known; [done | reflexivity]);
  unfold srd_spew at 1; unfold bind at 1; unfold emit at 1;
  erewrite bind_Ret by (apply g_try_malloc_ok; exact Hoom);
  cbn [negb]; fold put_line; 
  change (set_trace ?s (trace ?s ++ [put_line])) with (logged s [put_line]);
  rewrite ?Hkind;
  cbn [Z.eqb Pos.eqb SRD_OUTPUT_ANN SRD_OUTPUT_PYTHON SRD_OUTPUT_BINARY
       SRD_OUTPUT_META SRD_OUTPUT_PACKET].


Lemma sink_calls_app t1 t2 :
  sink_calls (t1 ++ t2) = sink_calls t1 ++ sink_calls t2.
Proof. apply omap_app. Qed.

(** The loop calls [decode] on each instance of the list, in order and
    whatever the calls answer, and leaves no exception pending. *)
Lemma send_to_stack_spec fmt l s e p st :
  exists st',
    send_to_stack fmt l s e p st = Ret tt st' /\
    decode_calls (trace st') =
      decode_calls (trace st) ++ map (fun nd => (inst_id nd, s, e, p)) l /\
    sink_calls (trace st') = sink_calls (trace st) /\
    di_list st' = di_list st /\ oom st' = oom st /\
    (py_err st = None -> py_err st' = None).
Proof.
  revert st. induction l as [|nd l IH]; intros st.
  - exists st. simpl. rewrite app_nil_r. done.
  - cbn [send_to_stack].
    cbv [bind srd_spew PyObject_CallMethod_decode emit].
    destruct (py_decode (py_inst nd) s e p) as [exc|];
      cbv [bind PyErr_Set ret srd_exception_catch NULL];
      match goal with |- context [send_to_stack _ _ _ _ _ ?s0] =>
        destruct (IH s0) as (st' & -> & Hd & Hs & Hdi & Ho & He) end;
      exists st'; (split; [done|]); simpl in *;
      rewrite Hd, Hs, !decode_calls_app, !sink_calls_app; simpl;
      rewrite !app_nil_r, <- app_assoc; repeat split; auto.
Qed.

Lemma bind_assoc {A B C} (m : M A) (k : A -> M B) (k' : B -> M C) st :
  bind (bind m k) k' st = bind m (fun x => bind (k x) k') st.
Proof. unfold bind. by destruct (m st). Qed.

(** Forwarding followed by code that calls no [decode]. *)
Lemma send_then_quiet {A} fmt l s e p (k : M A) st :
  frames same_decodes k ->
  decode_calls (trace (final_state ((send_to_stack fmt l s e p ;; k) st))) =
  decode_calls (trace st) ++ map (fun nd => (inst_id nd, s, e, p)) l.
Proof.
  intros Hk.
  destruct (send_to_stack_spec fmt l s e p st) as (st' & Hrun & Hd & _).
  rewrite (bind_Ret _ _ _ _ _ Hrun), <- Hd. apply Hk.
Qed.

Lemma frames_final {A} (m : M A) st :
  frames same_decodes m ->
  decode_calls (trace (final_state (m st))) = decode_calls (trace st).
Proof. intros Hf. apply Hf. Qed.

Lemma logged_decode_calls st t :
  decode_calls t = [] ->
  decode_calls (trace (logged st t)) = decode_calls (trace st).
Proof. intros Ht. simpl. by rewrite decode_calls_app, Ht, app_nil_r. Qed.

Lemma err_lines_app t1 t2 :
  err_lines (t1 ++ t2) = err_lines t1 ++ err_lines t2.
Proof. apply omap_app. Qed.

(** The loop logs one error line for each instance whose [decode]
    raises, and no other. *)
Lemma send_to_stack_caught fmt l s e p st :
  exists st',
    send_to_stack fmt l s e p st = Ret tt st' /\
    err_lines (trace st')
      = err_lines (trace st)
        ++ map (fun _ => "Calling %s decode(): ")
             (List.filter (raises s e p) l).
Proof.
  revert st. induction l as [|nd l IH]; intros st.
  - exists st. simpl. by rewrite app_nil_r.
  - cbn [send_to_stack List.filter]. unfold raises at 1.
    cbv [bind srd_spew PyObject_CallMethod_decode emit].
    destruct (py_decode (py_inst nd) s e p) as [exc|];
      cbv [bind PyErr_Set ret srd_exception_catch NULL];
      match goal with |- context [send_to_stack _ _ _ _ _ ?s0] =>
        destruct (IH s0) as (st' & -> & Herr) end;
      exists st'; (split; [done|]); rewrite Herr;
      cbn [trace set_trace set_py_err map];
      rewrite !err_lines_app; cbn [err_lines omap];
      by rewrite ?app_nil_r, <- ?app_assoc.
Qed.

Lemma logged_err_lines st t :
  err_lines t = [] -> err_lines (trace (logged st t)) = err_lines (trace st).
Proof. intros Ht. simpl. by rewrite err_lines_app, Ht, app_nil_r. Qed.

(** C1.  Forwarding depends only on the kind of the resolved stream.  A
    [put] on a Passthrough ([SRD_OUTPUT_PYTHON]) or Packet stream calls
    [decode(start_sample, end_sample, payload)] on every downstream
    instance, in the order of [next_di], whatever the earlier calls
    answer: the statement holds for every behaviour [py_decode] of the
    downstream decoders, raising ones included.  A raised exception is
    caught, on a Passthrough and on a Packet stream alike: it is logged,
    one error line for each instance that raises, and taken off the
    error indicator.  A Passthrough [put] entered with no exception
    pending returns [None] with none pending.  A Packet [put] entered
    so goes on to its frontend part with none pending: what it does from
    there is that part, run in the state the loop leaves; with no
    frontend callback it returns [None] with none pending.  A [put] on
    an Annotation, Binary or Meta stream calls no [decode] at all. *)
Theorem put_forwards_by_kind `{srd_packet_types} st self a di pdo :
  put_reaches st self a di pdo ->
  let o := Decoder_put self (Parsed a) st in
  let sent := map (fun nd => (inst_id nd, put_start_sample a,
                              put_end_sample a, put_py_data a))
                  (next_di di) in
  (output_type pdo = SRD_OUTPUT_PYTHON \/ output_type pdo = SRD_OUTPUT_PACKET ->
   decode_calls (trace (final_state o)) = decode_calls (trace st) ++ sent) /\
  (output_type pdo = SRD_OUTPUT_PYTHON -> py_err st = None ->
   returned o = Some (Some PyNone) /\ py_err (final_state o) = None) /\
  (output_type pdo = SRD_OUTPUT_ANN \/ output_type pdo = SRD_OUTPUT_BINARY \/
   output_type pdo = SRD_OUTPUT_META ->
   decode_calls (trace (final_state o)) = decode_calls (trace st)) /\
  (output_type pdo = SRD_OUTPUT_PYTHON ->
   err_lines (trace (final_state o))
     = err_lines (trace st) ++ put_caught a di) /\
  (output_type pdo = SRD_OUTPUT_PACKET ->
   exists st1,
     decode_calls (trace st1) = decode_calls (trace st) ++ sent /\
     err_lines (trace st1) = err_lines (trace st) ++ put_caught a di /\
     (py_err st = None -> py_err st1 = None) /\
     o = (match srd_pd_output_callback_find (sess di) (output_type pdo) with
          | Some c =>
              do r <- convert_packet di (put_pdata a pdo)
                        (Some (put_py_data a));
              if negb (srd_status_eqb r.1 SRD_OK) then ret tt
              else call_cb c r.2
          | None => ret tt
          end ;;
          ret (Some PyNone)) st1 /\
     (srd_pd_output_callback_find (sess di) (output_type pdo) = None ->
      py_err st = None ->
      o = Ret (Some PyNone) st1 /\ py_err (final_state o) = None)).
Proof.
  intros Hreach o sent. subst o sent. split; [|split; [|split; [|split]]].
  - intros [Hkind|Hkind]; put_begin Hreach Hkind;
      rewrite bind_assoc, send_then_quiet;
      [ by rewrite logged_decode_calls | | by rewrite logged_decode_calls | ];
      destruct (srd_pd_output_callback_find _ _); quiet.
    apply quiet_convert_packet.
  - intros Hkind Herr.
    cut (exists st', Decoder_put self (Parsed a) st = Ret (Some PyNone) st'
                     /\ py_err st' = None).
    { by intros (st' & -> & He). }
    put_begin Hreach Hkind. rewrite bind_assoc.
    destruct (send_to_stack_spec "Sending %d-%d to instance %s" (next_di di)
                (put_start_sample a) (put_end_sample a) (put_py_data a)
                (logged st [put_line])) as (st' & Hrun & _ & _ & _ & _ & He).
    rewrite (bind_Ret _ _ _ _ _ Hrun).
    specialize (He Herr).
    destruct (srd_pd_output_callback_find _ _);
      cbv [bind call_cb emit ret]; eexists; split; by eauto.
  - rewrite <- (logged_decode_calls st [put_line]) by done.
    intros [Hkind|[Hkind|Hkind]]; put_begin Hreach Hkind; apply frames_final;
      destruct (srd_pd_output_callback_find _ _); quiet.
    + apply quiet_convert_annotation.
    + apply quiet_convert_binary.
    + apply quiet_convert_meta.
  - intros Hkind.
    cut (exists st', Decoder_put self (Parsed a) st = Ret (Some PyNone) st'
                     /\ err_lines (trace st')
                        = err_lines (trace st) ++ put_caught a di).
    { by intros (st' & -> & He). }
    put_begin Hreach Hkind. rewrite bind_assoc.
    destruct (send_to_stack_caught "Sending %d-%d to instance %s" (next_di di)
                (put_start_sample a) (put_end_sample a) (put_py_data a)
                (logged st [put_line])) as (st' & Hrun & Herr).
    rewrite (bind_Ret _ _ _ _ _ Hrun).
    rewrite logged_err_lines in Herr by done.
    destruct (srd_pd_output_callback_find _ _);
      cbv [bind call_cb emit ret]; eexists; (split; [reflexivity|]);
      cbn [trace set_trace]; rewrite ?err_lines_app, Herr; cbn [err_lines omap];
      by rewrite ?app_nil_r.
  - intros Hkind.
    destruct (send_to_stack_spec "Sending packet %d-%d to instance %s"
                (next_di di) (put_start_sample a) (put_end_sample a)
                (put_py_data a) (logged st [put_line]))
      as (st1 & Hrun & Hdec & _ & _ & _ & He).
    destruct (send_to_stack_caught "Sending packet %d-%d to instance %s"
                (next_di di) (put_start_sample a) (put_end_sample a)
                (put_py_data a) (logged st [put_line]))
      as (st1' & Hrun' & Herr).
    rewrite Hrun in Hrun'. injection Hrun' as <-.
    rewrite logged_decode_calls in Hdec by done.
    rewrite logged_err_lines in Herr by done.
    assert (Hput : Decoder_put self (Parsed a) st
      = (match srd_pd_output_callback_find (sess di) (output_type pdo) with
         | Some c =>
             bind (convert_packet di (put_pdata a pdo) (Some (put_py_data a)))
               (fun r => if negb (srd_status_eqb r.1 SRD_OK) then ret tt
                         else call_cb c r.2)
         | None => ret tt
         end ;;
         ret (Some PyNone)) st1).
    { rewrite Hkind. put_begin Hreach Hkind.
      by rewrite bind_assoc, (bind_Ret _ _ _ _ _ Hrun). }
    exists st1. split; [done|]. split; [done|]. split; [exact He|].
    split; [exact Hput|].
    intros Hcb Herr0. rewrite Hput, Hcb. cbv [bind ret]. cbn [final_state].
    split; [done|]. by apply He.
Qed.

(** C2.  A [put] whose output id (a C [int]) is not in
    [0, number of streams registered on the instance) fails: it returns
    [NULL], and all it does is log the error line about the invalid
    output ID.  No converter runs, no frontend callback and no downstream
    [decode] is called, the stream list and the error indicator stay as
    they were.  (Stream ids are C [int]s, so the list has at most 2^31
    streams.) *)
Theorem put_unknown_stream_id `{srd_packet_types} st self a di :
  di_list st !! self = Some di ->
  fits_int (put_output_id a) ->
  Z.of_nat (length (pd_output di)) <= 2 ^ 31 ->
  ~ (0 <= put_output_id a < Z.of_nat (length (pd_output di))) ->
  let o := Decoder_put self (Parsed a) st in
  o = Ret NULL
        (logged st [ev_log SRD_LOG_ERR
                      "Protocol decoder %s submitted invalid output ID %d."]) /\
  sink_calls (trace (final_state o)) = sink_calls (trace st) /\
  decode_calls (trace (final_state o)) = decode_calls (trace st) /\
  di_list (final_state o) = di_list st /\
  py_err (final_state o) = py_err st.
Proof.
  intros Hdi Hint Hlen Hout o.
  assert (Ho : o = Ret NULL
        (logged st [ev_log SRD_LOG_ERR
                      "Protocol decoder %s submitted invalid output ID %d."])).
  { subst o. unfold Decoder_put, srd_inst_find_by_obj.
    unfold bind at 1. rewrite Hdi.
    rewrite (g_slist_nth_outside _ _ Hint Hlen Hout). reflexivity. }
  rewrite Ho. simpl.
  rewrite sink_calls_app, decode_calls_app. simpl. by rewrite !app_nil_r.
Qed.


(** C10.  With no frontend callback registered for its kind, a [put] on
    an Annotation, Binary or Meta stream does nothing but log its own
    line and return [None], whatever the payload: no converter sees the
    payload, so a malformed one is not diagnosed.  On a Packet stream
    the call does the forwarding to the stacked decoders, nothing else,
    and returns [None]. *)
Theorem put_without_sink `{srd_packet_types} st self a di pdo :
  put_reaches st self a di pdo ->
  srd_pd_output_callback_find (sess di) (output_type pdo) = None ->
  let o := Decoder_put self (Parsed a) st in
  (output_type pdo = SRD_OUTPUT_ANN \/ output_type pdo = SRD_OUTPUT_BINARY \/
   output_type pdo = SRD_OUTPUT_META ->
   o = Ret (Some PyNone) (logged st [put_line])) /\
  (output_type pdo = SRD_OUTPUT_PACKET ->
   exists st',
     send_to_stack "Sending packet %d-%d to instance %s" (next_di di)
       (put_start_sample a) (put_end_sample a) (put_py_data a)
       (logged st [put_line]) = Ret tt st' /\
     o = Ret (Some PyNone) st' /\
     sink_calls (trace st') = sink_calls (trace st) /\
     decode_calls (trace st')
       = decode_calls (trace st)
         ++ map (fun nd => (inst_id nd, put_start_sample a,
                            put_end_sample a, put_py_data a))
                (next_di di)).
Proof.
  intros Hreach Hcb o. subst o. split.
  - intros [Hkind|[Hkind|Hkind]]; rewrite Hkind in Hcb;
      put_begin Hreach Hkind; by rewrite Hcb.
  - intros Hkind. rewrite Hkind in Hcb.
    destruct (send_to_stack_spec "Sending packet %d-%d to instance %s"
                (next_di di)
                (put_start_sample a) (put_end_sample a) (put_py_data a)
                (logged st [put_line])) as (st' & Hrun & Hd & Hs & _).
    exists st'. split; [done|]. split; [|split].
    + put_begin Hreach Hkind. rewrite Hcb, bind_assoc.
      by rewrite (bind_Ret _ _ _ _ _ Hrun).
    + rewrite Hs. simpl. rewrite sink_calls_app. simpl. by rewrite app_nil_r.
    + rewrite Hd. by rewrite logged_decode_calls.
Qed.

(** One registration: the answer is the number of streams there were,
    and the stream list grows by the new stream at its end. *)
Lemma Decoder_register_step st self di a :
  di_list st !! self = Some di ->
  oom st = [] ->
  supported a ->
  Z.of_nat (length (pd_output di)) <= INT_MAX ->
  exists pdo st',
    Decoder_register self (Parsed a) st
      = Ret (Some (PyLong (Z.of_nat (length (pd_output di))))) st' /\
    di_list st' !! self = Some (set_pd_output di (pd_output di ++ [pdo])) /\
    oom st' = [] /\
    pdo_id pdo = Z.of_nat (length (pd_output di)) /\
    output_type pdo = reg_output_type a.
Proof.
  intros Hdi Hoom Hsup Hlen.
  unfold Decoder_register, srd_inst_find_by_obj.
  unfold bind at 1. rewrite Hdi.
  destruct (Z.eqb_spec (reg_output_type a) SRD_OUTPUT_META) as [Hmeta|Hother].
  - destruct (Hsup Hmeta) as (t & n & d & -> & Ht).
    destruct Ht as [-> | ->]; simpl;
      cbv [bind srd_dbg emit];
      rewrite g_try_malloc_ok by done; simpl;
      rewrite (g_slist_length_small _ Hlen);
      eexists _, _; (split; [reflexivity|]); simpl;
      rewrite lookup_insert_eq; by rewrite ?Hmeta.
  - cbv [bind srd_dbg emit].
    rewrite g_try_malloc_ok by done. simpl.
    rewrite (g_slist_length_small _ Hlen).
    eexists _, _. split; [reflexivity|]. simpl.
    by rewrite lookup_insert_eq.
Qed.

Lemma ids_cons from n : ids from (S n) = from :: ids (from + 1) n.
Proof.
  unfold ids. simpl. f_equal; [lia|].
  rewrite <- seq_shift, map_map. apply map_ext. intros i. lia.
Qed.

(** C8.  Successive calls of [register] on an instance answer with the
    stream ids that continue the instance's numbering: each call's
    answer is the number of streams registered before it, the new
    streams are appended to the stream list in call order, and the
    streams that were there stay in place, unchanged.  On a fresh
    instance [N] calls answer [0 .. N-1].  (Ids are C [int]s: the count
    stays within 2^31; no allocation fails, and every Meta registration
    names [int] or [float].) *)
Theorem register_ids_dense st self di calls :
  di_list st !! self = Some di ->
  oom st = [] ->
  Forall supported calls ->
  Z.of_nat (length (pd_output di) + length calls) <= 2 ^ 31 ->
  let first := Z.of_nat (length (pd_output di)) in
  exists st' news,
    register_each self calls st
      = Ret (map (fun i => Some (PyLong i)) (ids first (length calls))) st' /\
    di_list st' !! self = Some (set_pd_output di (pd_output di ++ news)) /\
    map pdo_id news = ids first (length calls) /\
    map output_type news = map reg_output_type calls /\
    (pd_output di = [] ->
     map pdo_id news = map Z.of_nat (seq 0 (length calls))).
Proof.
  intros Hdi Hoom Hsup Hlen first.
  cut (exists st' news,
    register_each self calls st
      = Ret (map (fun i => Some (PyLong i)) (ids first (length calls))) st' /\
    di_list st' !! self = Some (set_pd_output di (pd_output di ++ news)) /\
    map pdo_id news = ids first (length calls) /\
    map output_type news = map reg_output_type calls).
  { intros (st' & news & H1 & H2 & H3 & H4). exists st', news.
    repeat split; try done. intros Hfresh. rewrite H3. subst first.
    rewrite Hfresh. unfold ids. simpl. apply map_ext. intros; lia. }
  subst first. revert st di Hdi Hoom Hlen.
  induction Hsup as [|a calls Ha Hsup IH]; intros st di Hdi Hoom Hlen.
  - exists st, []. simpl. rewrite app_nil_r. by destruct di.
  - simpl length in *.
    destruct (Decoder_register_step st self di a Hdi Hoom Ha)
      as (pdo & st1 & Hrun & Hdi1 & Hoom1 & Hid & Hty).
    { unfold INT_MAX. lia. }
    destruct (IH st1 _ Hdi1 Hoom1) as (st' & news & Hrest & Hdi' & Hids & Htys).
    { simpl. rewrite length_app. simpl. lia. }
    exists st', (pdo :: news). cbn [register_each].
    rewrite (bind_Ret _ _ _ _ _ Hrun), (bind_Ret _ _ _ _ _ Hrest).
    simpl pd_output in *. rewrite length_app in *. simpl length in *.
    rewrite ids_cons.
    replace (Z.of_nat (length (pd_output di) + 1)) with
      (Z.of_nat (length (pd_output di)) + 1) in * by lia.
    repeat split.
    + rewrite Hdi'. unfold set_pd_output. simpl. by rewrite <- app_assoc.
    + simpl. by rewrite Hid, Hids.
    + simpl. by rewrite Hty, Htys.
Qed.

(** Running a converter on an unknown payload: the code is unfolded down
    to CPython and GLib, then followed along each of its branches. *)
Ltac unfold_run H :=
  cbv [convert_annotation convert_binary convert_meta convert_packet
       bind ret crash c_not c_and Py_Check
       PyLong_Check PyFloat_Check PyUnicode_Check PyBytes_Check
       PyList_Check PyTuple_Check PyList_Size PyList_GetItem PyTuple_Size
       PyTuple_GetItem PyLong_AsLong PyLong_AsLongLong PyFloat_AsDouble
       PyBytes_Size PyBytes_AsStringAndSize PyUnicode_AsASCIIString
       PyBytes_AsString PyErr_Set PyErr_Occurred py_strseq_to_char
       g_slist_nth_data g_try_malloc srd_err emit NULL] in H.

Ltac tidy H :=
  cbn [is_list is_tuple is_long is_float is_unicode is_bytes negb Z.eqb
       Pos.eqb fst snd srd_status_eqb] in H.

Ltac branch H :=
  match type of H with
  | context [match ?x with _ => _ end] =>
      lazymatch x with
      | context [match _ with _ => _ end] => fail
      | negb ?y => destruct y eqn:?
      | _ => destruct x eqn:?
      end
  end; tidy H; try discriminate H;
  try match goal with
      | E : _ = _ |- _ => solve [cbn in E; discriminate E]
      end.

Lemma longs_fit_at o items i v :
  longs_fit o -> elements o = items -> items !! i = Some v ->
  is_long v = true -> fits_longb (long_value v) = false -> False.
Proof.
  intros Hfit <- Hv Hlong Hover.
  assert (fits_longb (long_value v) = true); [|congruence].
  apply fits_longb_spec, Hfit; [|done].
  apply list_elem_of_lookup. eauto.
Qed.

(** At the end of a branch that answered [SRD_ERR_PYTHON]: one error
    line was logged, and an exception is pending only if a CPython call
    failed, which the conditions on the payload exclude. *)
Ltac failure_leaf H :=
  injection H as <- <-;
  split;
  [ eexists; reflexivity
  | let Hshape := fresh "Hshape" in
    let Hfit := fresh "Hfit" in
    intros Hshape Hfit; cbn;
    first [ reflexivity
          | discriminate Hshape
          | match goal with
            | Hv : ?items !! _ = Some ?v, Hl : is_long ?v = true,
              Ho : fits_longb (long_value ?v) = false |- _ =>
                exfalso;
                exact (longs_fit_at _ items _ v Hfit eq_refl Hv Hl Ho)
            end
          | match goal with
            | Hn : (Z.of_nat (length ?l) =? 2) = false |- _ =>
                rewrite (Hshape l eq_refl) in Hn; discriminate Hn
            end ] ].

Ltac follow H := unfold_run H; tidy H; repeat branch H;
   try failure_leaf H.

Lemma convert_annotation_failure di obj pdata st0 r st1 :
  convert_annotation di (Some obj) pdata st0 = Ret (SRD_ERR_PYTHON, r) st1 ->
  (exists fmt, trace st1 = trace st0 ++ [ev_log SRD_LOG_ERR fmt]) /\
  (is_tuple obj = false -> longs_fit obj -> py_err st1 = py_err st0).
Proof.
  intros Hrun. destruct obj; cbn [is_list is_tuple negb] in Hrun. 
  all: follow Hrun.
Qed.

Lemma convert_binary_failure di obj pdata st0 r st1 :
  convert_binary di (Some obj) pdata st0 = Ret (SRD_ERR_PYTHON, r) st1 ->
  (exists fmt, trace st1 = trace st0 ++ [ev_log SRD_LOG_ERR fmt]) /\
  ((forall items, obj = PyTuple items -> length items = 2%nat) ->
   longs_fit obj -> py_err st1 = py_err st0).
Proof.
  intros Hrun. destruct obj.
  all: follow Hrun.
Qed.

Lemma convert_packet_failure `{srd_packet_types} di obj pdata st0 r st1 :
  convert_packet di pdata (Some obj) st0 = Ret (SRD_ERR_PYTHON, r) st1 ->
  (exists fmt, trace st1 = trace st0 ++ [ev_log SRD_LOG_ERR fmt]) /\
  (longs_fit obj -> py_err st1 = py_err st0).
Proof.
  intros Hrun.
  cut ((exists fmt, trace st1 = trace st0 ++ [ev_log SRD_LOG_ERR fmt]) /\
       (True -> longs_fit obj -> py_err st1 = py_err st0)).
  { intros [Hlog Herr]. auto. }
  destruct obj.
  all: follow Hrun.
Qed.

(** ** The Meta converter *)

Lemma convert_meta_int64 pdata obj st :
  meta_type (pdo pdata) = Some G_VARIANT_TYPE_INT64 ->
  py_err st = None ->
  (is_long obj = true -> fits_long (long_value obj) ->
   convert_meta pdata (Some obj) st
     = Ret (SRD_OK, set_data pdata
                      (data_meta (g_variant_new_int64 (long_value obj)))) st) /\
  (is_long obj = true -> ~ fits_long (long_value obj) ->
   convert_meta pdata (Some obj) st
     = Ret (SRD_ERR_PYTHON, pdata)
         (set_py_err st (Some PyExc_OverflowError))) /\
  (is_long obj = false ->
   convert_meta pdata (Some obj) st
     = Ret (SRD_ERR_PYTHON, pdata) (set_py_err st (Some PyExc_TypeError))).
Proof.
  intros Hty Herr. unfold convert_meta. rewrite Hty.
  cbv [bind ret c_not PyLong_Check Py_Check PyLong_AsLongLong PyLong_AsLong
       PyErr_Set PyErr_Occurred].
  repeat split.
  - intros -> Hfit%fits_longb_spec. rewrite Hfit. simpl. by rewrite Herr.
  - intros -> Hfit. simpl.
    destruct (fits_longb (long_value obj)) eqn:E.
    + by apply fits_longb_spec in E.
    + done.
  - by intros ->.
Qed.

Lemma convert_meta_double pdata obj st :
  meta_type (pdo pdata) = Some G_VARIANT_TYPE_DOUBLE ->
  py_err st = None ->
  (forall d, obj = PyFloat d ->
   convert_meta pdata (Some obj) st
     = Ret (SRD_OK, set_data pdata (data_meta (g_variant_new_double d))) st) /\
  (is_float obj = false ->
   convert_meta pdata (Some obj) st
     = Ret (SRD_ERR_PYTHON, pdata) (set_py_err st (Some PyExc_TypeError))).
Proof.
  intros Hty Herr. unfold convert_meta. rewrite Hty.
  cbv [bind ret c_not PyFloat_Check Py_Check PyFloat_AsDouble
       PyErr_Set PyErr_Occurred].
  split.
  - intros d ->. simpl. by rewrite Herr.
  - by intros ->.
Qed.
Ltac unfold_goal :=
  cbv [convert_annotation convert_binary convert_meta convert_packet
       bind ret crash c_not c_and Py_Check
       PyLong_Check PyFloat_Check PyUnicode_Check PyBytes_Check
       PyList_Check PyTuple_Check PyList_Size PyList_GetItem PyTuple_Size
       PyTuple_GetItem PyLong_AsLong PyLong_AsLongLong PyFloat_AsDouble
       PyBytes_Size PyBytes_AsStringAndSize PyUnicode_AsASCIIString
       PyBytes_AsString PyErr_Set PyErr_Occurred py_strseq_to_char
       g_slist_nth_data g_try_malloc srd_err emit NULL];
  cbn [is_list is_tuple is_long is_float is_unicode is_bytes negb
       long_value fst snd srd_status_eqb length Z.of_nat Pos.of_succ_nat
       Pos.succ Z.eqb Pos.eqb lookup list_lookup].

(** After a rewrite: take the branch that was decided. *)
Ltac decided :=
  cbn [length];
  repeat match goal with
         | |- context [Z.of_nat ?n =? ?m] =>
             let v := eval cbv [Z.of_nat Pos.of_succ_nat Pos.succ Z.eqb
                                Pos.eqb]
                      in (Z.of_nat n =? m) in
             progress change (Z.of_nat n =? m) with v
         end;
  cbn [negb fst snd srd_status_eqb Z.eqb Pos.eqb].

Lemma to_int_wrapped k : 0 <= k <= INT_MAX -> to_int (2 ^ 32 + k) = k.
Proof.
  unfold INT_MAX, to_int. intros Hk.
  replace (2 ^ 32 + k + 2 ^ 31) with (k + 2 ^ 31 + 1 * 2 ^ 32) by lia.
  rewrite Z.mod_add by lia. rewrite Z.mod_small; lia.
Qed.

Lemma fits_longb_true n : fits_long n -> fits_longb n = true.
Proof. apply fits_longb_spec. Qed.

Lemma g_slist_nth_class {A} (l : list A) k :
  0 <= k < Z.of_nat (length l) -> k <= INT_MAX ->
  exists x, g_slist_nth l k = Some x.
Proof.
  intros Hk Hmax. rewrite g_slist_nth_inside by done.
  apply lookup_lt_is_Some_2. lia.
Qed.

Lemma strseq_strings texts : strseq (map PyUnicode texts) = Some texts.
Proof. induction texts as [|s texts IH]; simpl; [done|]. by rewrite IH. Qed.

(** C7, at a failing input.  The class index of a Binary payload is
    narrowed from [long] to [int] before it is looked up: for a declared
    class [k], the index [2^32 + k], which references no declared
    BinaryClass, is accepted and the bytes are delivered as of class
    [k]. *)
Theorem binary_class_index_wraps di k bytes pdata st :
  0 <= k < Z.of_nat (length (binary (decoder di))) ->
  k <= INT_MAX ->
  bytes <> [] ->
  oom st = [] ->
  convert_binary di (Some (PyTuple [PyLong (2 ^ 32 + k); PyBytes bytes]))
    pdata st
  = Ret (SRD_OK,
         set_data pdata
           (data_binary {| bin_class := k;
                           size := Z.of_nat (length bytes);
                           bin_data := bytes |})) st.
Proof.
  intros Hk Hmax Hbytes Hoom.
  destruct (g_slist_nth_class _ k Hk Hmax) as [cls Hcls].
  unfold_goal.
  rewrite fits_longb_true
    by (unfold fits_long, LONG_MIN, LONG_MAX, INT_MAX in *; lia).
  rewrite to_int_wrapped by (unfold INT_MAX in *; lia). rewrite Hcls.
  destruct bytes as [|b bytes]; [done|].
  decided. repeat (rewrite Hoom; decided). reflexivity.
Qed.

(** C3, at two failing inputs.  A tuple passes the converter's first
    check ("list or tuple") and is then measured with [PyList_Size],
    which fails on a tuple: every tuple payload is rejected, as a list of
    "-1 elements", with a [SystemError] left pending.  And the class
    index is narrowed from [long] to [int] before it is looked up: for a
    declared class [k], the index [2^32 + k] is accepted and delivered
    as class [k]. *)
Theorem annotation_tuple_rejected_class_wraps di items k texts pdata st :
  0 <= k < Z.of_nat (length (annotations (decoder di))) ->
  k <= INT_MAX ->
  oom st = [] ->
  let rejected := convert_annotation di (Some (PyTuple items)) pdata st in
  (returned rejected = Some (SRD_ERR_PYTHON, pdata) /\
   py_err (final_state rejected) = Some PyExc_SystemError /\
   trace (final_state rejected)
     = trace st ++ [ev_log SRD_LOG_ERR
         "Protocol decoder %s submitted annotation list with %d elements instead of 2"]) /\
  convert_annotation di
    (Some (PyList [PyLong (2 ^ 32 + k); PyList (map PyUnicode texts)]))
    pdata st
  = Ret (SRD_OK,
         set_data pdata
           (data_annotation {| ann_class := k; ann_text := texts |})) st.
Proof.
  intros Hk Hmax Hoom rejected. split.
  - subst rejected. unfold_goal. done.
  - destruct (g_slist_nth_class _ k Hk Hmax) as [cls Hcls].
    unfold_goal.
    rewrite fits_longb_true
      by (unfold fits_long, LONG_MIN, LONG_MAX, INT_MAX in *; lia).
    rewrite to_int_wrapped by (unfold INT_MAX in *; lia). rewrite Hcls.
    rewrite strseq_strings. decided.
    repeat (rewrite Hoom; decided). reflexivity.
Qed.

Lemma logged_logged st t1 t2 : logged (logged st t1) t2 = logged st (t1 ++ t2).
Proof. unfold logged, set_trace. simpl. by rewrite app_assoc. Qed.

(** C5, at two failing inputs.  A Field packet of the required shape,
    with a declared class, whose field name or field value has a
    character outside ASCII is not delivered: [PyUnicode_AsASCIIString]
    answers [NULL], which [PyBytes_AsString] dereferences.  And the
    packet number is narrowed from [long] to [int]: a Location packet is
    delivered with [to_int n] for its packet number [n]. *)
Theorem packet_field_crashes_number_wraps `{srd_packet_types}
    di c n fname fvalue pdata st :
  fits_int SRD_PACKET_LOCATION ->
  fits_int SRD_PACKET_FIELD ->
  0 <= c < Z.of_nat (length (annotations (decoder di))) ->
  c <= INT_MAX ->
  fits_long n ->
  all_ascii fname = false \/ all_ascii fvalue = false ->
  (exists st',
     convert_packet di pdata
       (Some (PyList [PyLong c; PyLong SRD_PACKET_FIELD; PyLong n;
                      PyUnicode fname; PyUnicode fvalue])) st
     = Crash st') /\
  convert_packet di pdata
    (Some (PyList [PyLong c; PyLong SRD_PACKET_LOCATION; PyLong n])) st
  = Ret (SRD_OK,
         set_data pdata
           (data_packet {| pkt_ann_class := c;
                           packet_output_type := SRD_PACKET_LOCATION;
                           packet_num := to_int n;
                           field_name := None;
                           field_value := None |})) st.
Proof.
  intros Hloc Hfield Hc Hmax Hn Hbad.
  destruct (g_slist_nth_class _ c Hc Hmax) as [cls Hcls].
  assert (Hcl : fits_long c)
    by (unfold fits_long, LONG_MIN, LONG_MAX, INT_MAX in *; lia).
  assert (Hfl : forall z, fits_int z -> fits_long z)
    by (unfold fits_int, fits_long, LONG_MIN, LONG_MAX, INT_MIN, INT_MAX;
        intros; lia).
  assert (Hci : fits_int c) by (unfold fits_int, INT_MIN, INT_MAX in *; lia).
  split.
  - unfold_goal.
    rewrite !fits_longb_true by auto.
    rewrite (to_int_fits c), Hcls by done.
    rewrite (to_int_fits SRD_PACKET_FIELD) by done.
    destruct (Z.eqb_spec SRD_PACKET_FIELD SRD_PACKET_LOCATION) as [E|_];
      [by destruct packet_types_differ|].
    rewrite Z.eqb_refl. decided.
    destruct (all_ascii fname) eqn:Hname; [|by eexists].
    destruct Hbad as [?|Hvalue]; [done|]. rewrite Hvalue. by eexists.
  - unfold_goal.
    rewrite !fits_longb_true by auto.
    rewrite (to_int_fits c), Hcls by done.
    rewrite (to_int_fits SRD_PACKET_LOCATION) by done.
    rewrite Z.eqb_refl. decided. reflexivity.
Qed.

(** C6, at the failing inputs.  On a Packet stream with a frontend
    callback, a payload that is the empty list, or a one-element list
    whose element is a declared class index, ends in undefined
    behaviour, not in a validation failure: [PyList_GetItem] answers
    [NULL] for the missing element, and [PyLong_Check] reads the type of
    the object behind it. *)
Theorem put_packet_short_list_crashes `{srd_packet_types} st self a di pdo c :
  put_reaches st self a di pdo ->
  output_type pdo = SRD_OUTPUT_PACKET ->
  srd_pd_output_callback_find (sess di) SRD_OUTPUT_PACKET = Some c ->
  put_py_data a = PyList [] \/
  (exists v, put_py_data a = PyList [v] /\ is_long v = true /\
             0 <= long_value v < Z.of_nat (length (annotations (decoder di))) /\
             long_value v <= INT_MAX) ->
  exists st', Decoder_put self (Parsed a) st = Crash st'.
Proof.
  intros Hreach Hkind Hcb Hshort.
  put_begin Hreach Hkind. rewrite Hcb, bind_assoc.
  destruct (send_to_stack_spec "Sending packet %d-%d to instance %s"
              (next_di di)
              (put_start_sample a) (put_end_sample a) (put_py_data a)
              (logged st [put_line])) as (st' & Hrun & _).
  rewrite (bind_Ret _ _ _ _ _ Hrun).
  destruct Hshort as [->|(v & -> & Hlong & Hv & Hmax)].
  - unfold_goal. by eexists.
  - destruct (g_slist_nth_class _ _ Hv Hmax) as [cls Hcls].
    unfold_goal. rewrite Hlong. decided.
    rewrite fits_longb_true
      by (unfold fits_long, LONG_MIN, LONG_MAX, INT_MAX in *; lia).
    rewrite to_int_fits, Hcls
      by (unfold fits_int, INT_MIN, INT_MAX in *; lia).
    by eexists.
Qed.
(** C4, amended.  On a Meta stream with a frontend callback, entered
    with no exception pending:
    - on an Int64 stream an integral payload that fits a signed 64-bit
      integer is delivered as Int64 of its value; an integral payload
      beyond that range is rejected with an [OverflowError], and a
      payload that is no integer (a floating one, say) with a
      [TypeError];
    - on a Double stream a floating payload is delivered as Double of
      its value, and any other payload is rejected with a [TypeError];
    - a rejection is raised on the producer's error channel (CPython's
      error indicator) and logs nothing.
    The Annotation, Binary and Packet converters log every validation
    failure as one error line; they raise nothing themselves, and the
    error indicator is as it was unless a CPython accessor failed on the
    payload (a tuple handed to the Annotation converter, a tuple of the
    wrong length handed to the Binary converter, an integer beyond a C
    [long]). *)
Theorem meta_mismatch_raised_others_logged `{srd_packet_types}
    st self a di pdo c :
  put_reaches st self a di pdo ->
  output_type pdo = SRD_OUTPUT_META ->
  srd_pd_output_callback_find (sess di) SRD_OUTPUT_META = Some c ->
  py_err st = None ->
  let obj := put_py_data a in
  let o := Decoder_put self (Parsed a) st in
  let delivered v :=
    Ret (Some PyNone)
      (logged st [put_line;
                  ev_sink c {| start_sample := put_start_sample a;
                               end_sample := put_end_sample a;
                               pdo := pdo; data := data_meta v |}]) in
  let raised e :=
    Ret (Some PyNone) (set_py_err (logged st [put_line]) (Some e)) in
  (meta_type pdo = Some G_VARIANT_TYPE_INT64 ->
   (is_long obj = true -> fits_long (long_value obj) ->
    o = delivered (g_variant_new_int64 (long_value obj))) /\
   (is_long obj = true -> ~ fits_long (long_value obj) ->
    o = raised PyExc_OverflowError) /\
   (is_long obj = false -> o = raised PyExc_TypeError)) /\
  (meta_type pdo = Some G_VARIANT_TYPE_DOUBLE ->
   (forall d, obj = PyFloat d -> o = delivered (g_variant_new_double d)) /\
   (is_float obj = false -> o = raised PyExc_TypeError)) /\
  (forall payload pdata st0 r st1,
     convert_annotation di (Some payload) pdata st0
       = Ret (SRD_ERR_PYTHON, r) st1 ->
     (exists fmt, trace st1 = trace st0 ++ [ev_log SRD_LOG_ERR fmt]) /\
     (is_tuple payload = false -> longs_fit payload ->
      py_err st1 = py_err st0)) /\
  (forall payload pdata st0 r st1,
     convert_binary di (Some payload) pdata st0
       = Ret (SRD_ERR_PYTHON, r) st1 ->
     (exists fmt, trace st1 = trace st0 ++ [ev_log SRD_LOG_ERR fmt]) /\
     ((forall items, payload = PyTuple items -> length items = 2%nat) ->
      longs_fit payload -> py_err st1 = py_err st0)) /\
  (forall payload pdata st0 r st1,
     convert_packet di pdata (Some payload) st0
       = Ret (SRD_ERR_PYTHON, r) st1 ->
     (exists fmt, trace st1 = trace st0 ++ [ev_log SRD_LOG_ERR fmt]) /\
     (longs_fit payload -> py_err st1 = py_err st0)).
Proof.
  intros Hreach Hkind Hcb Herr obj o delivered raised.
  set (pdata := {| start_sample := put_start_sample a;
                   end_sample := put_end_sample a;
                   pdo := pdo; data := data_NULL |}).
  assert (Hput : o = bind (bind (convert_meta pdata (Some obj))
                             (fun r => if negb (srd_status_eqb r.1 SRD_OK)
                                       then ret tt else call_cb c r.2))
                          (fun _ => ret (Some PyNone))
                          (logged st [put_line])).
  { subst o. put_begin Hreach Hkind. by rewrite Hcb. }
  assert (Hclean : py_err (logged st [put_line]) = None) by done.
  assert (Hdelivered : forall v,
            bind (call_cb c (set_data pdata (data_meta v)))
              (fun _ => ret (Some PyNone)) (logged st [put_line])
            = delivered v).
  { intros v. subst delivered. cbv beta.
    transitivity
      (Ret (Some PyNone)
         (logged (logged st [put_line])
            [ev_sink c (set_data pdata (data_meta v))]));
      [reflexivity | by rewrite logged_logged]. }
  rewrite Hput, bind_assoc. clear Hput.
  split; [|split; [|split; [|split]]].
  - intros Hty.
    destruct (convert_meta_int64 pdata obj _ Hty Hclean)
      as (Hok & Hover & Hbad).
    split; [|split].
    + intros Hlong Hfit. rewrite (bind_Ret _ _ _ _ _ (Hok Hlong Hfit)).
      apply Hdelivered.
    + intros Hlong Hfit. by rewrite (bind_Ret _ _ _ _ _ (Hover Hlong Hfit)).
    + intros Hlong. by rewrite (bind_Ret _ _ _ _ _ (Hbad Hlong)).
  - intros Hty.
    destruct (convert_meta_double pdata obj _ Hty Hclean) as (Hok & Hbad).
    split.
    + intros d Hd. rewrite (bind_Ret _ _ _ _ _ (Hok d Hd)). apply Hdelivered.
    + intros Hfloat. by rewrite (bind_Ret _ _ _ _ _ (Hbad Hfloat)).
  - intros *. apply convert_annotation_failure.
  - intros *. apply convert_binary_failure.
  - intros *. apply convert_packet_failure.
Qed.
(** ** The converters on class indices within a C [int] *)

Lemma fits_int_long z : fits_int z -> fits_long z.
Proof.
  unfold fits_int, fits_long, LONG_MIN, LONG_MAX, INT_MIN, INT_MAX. lia.
Qed.

Lemma class_lookup {A} (l : list A) z :
  fits_int z -> Z.of_nat (length l) <= 2 ^ 31 ->
  if decide (0 <= z < Z.of_nat (length l))
  then exists x, g_slist_nth l z = Some x
  else g_slist_nth l z = None.
Proof.
  intros Hz Hlen. case_decide as Hin.
  - apply g_slist_nth_class; [done|]. unfold fits_int in Hz. lia.
  - by apply g_slist_nth_outside.
Qed.

(** Away from the narrowing of the class index, the Binary converter
    does what is asked of it: a tuple of a declared class and some bytes
    is delivered with exactly that class and those bytes; no bytes at
    all are rejected; an undeclared class is rejected. *)
Theorem convert_binary_within_int di v bytes pdata st :
  is_long v = true ->
  fits_int (long_value v) ->
  Z.of_nat (length (binary (decoder di))) <= 2 ^ 31 ->
  oom st = [] ->
  let declared :=
    0 <= long_value v < Z.of_nat (length (binary (decoder di))) in
  let o := convert_binary di (Some (PyTuple [v; PyBytes bytes])) pdata st in
  (declared -> bytes <> [] ->
   o = Ret (SRD_OK,
            set_data pdata
              (data_binary {| bin_class := long_value v;
                              size := Z.of_nat (length bytes);
                              bin_data := bytes |})) st) /\
  (declared -> bytes = [] ->
   o = Ret (SRD_ERR_PYTHON, pdata)
         (logged st [ev_log SRD_LOG_ERR
            "Protocol decoder %s submitted SRD_OUTPUT_BINARY with empty data set."])) /\
  (~ declared ->
   o = Ret (SRD_ERR_PYTHON, pdata)
         (logged st [ev_log SRD_LOG_ERR
            "Protocol decoder %s submitted SRD_OUTPUT_BINARY with unregistered binary class %d."])).
Proof.
  intros Hlong Hint Hlen Hoom declared o. subst declared o.
  pose proof (class_lookup (binary (decoder di)) _ Hint Hlen) as Hclass.
  unfold_goal. rewrite Hlong. decided.
  rewrite fits_longb_true by by apply fits_int_long.
  rewrite to_int_fits by done.
  case_decide as Hin.
  - destruct Hclass as [cls ->]. split; [|split]; [| |done].
    + intros _ Hbytes. destruct bytes as [|b bytes]; [done|].
      decided. repeat (rewrite Hoom; decided). reflexivity.
    + by intros _ ->.
  - rewrite Hclass. by repeat split.
Qed.

(** Away from the narrowing of the class index and on lists, the
    Annotation converter does what is asked of it: a list of a declared
    class and a list of strings is delivered with exactly that class and
    those strings; an undeclared class is rejected. *)
Theorem convert_annotation_within_int di v texts pdata st :
  is_long v = true ->
  fits_int (long_value v) ->
  Z.of_nat (length (annotations (decoder di))) <= 2 ^ 31 ->
  oom st = [] ->
  let declared :=
    0 <= long_value v < Z.of_nat (length (annotations (decoder di))) in
  let o := convert_annotation di
             (Some (PyList [v; PyList (map PyUnicode texts)])) pdata st in
  (declared ->
   o = Ret (SRD_OK,
            set_data pdata
              (data_annotation {| ann_class := long_value v;
                                  ann_text := texts |})) st) /\
  (~ declared ->
   o = Ret (SRD_ERR_PYTHON, pdata)
         (logged st [ev_log SRD_LOG_ERR
            "Protocol decoder %s submitted data to unregistered annotation class %d."])).
Proof.
  intros Hlong Hint Hlen Hoom declared o. subst declared o.
  pose proof (class_lookup (annotations (decoder di)) _ Hint Hlen) as Hclass.
  unfold_goal. rewrite Hlong. decided.
  rewrite fits_longb_true by by apply fits_int_long.
  rewrite to_int_fits by done.
  case_decide as Hin.
  - destruct Hclass as [cls ->]. split; [|done].
    intros _. rewrite strseq_strings. decided.
    repeat (rewrite Hoom; decided). reflexivity.
  - rewrite Hclass. by split.
Qed.

(** Away from the narrowing of its integers and on ASCII strings
    without NUL, the Packet converter does what is asked of it for the
    two shapes: a Location list of 3 elements and a Field list of 5 are
    delivered with exactly their class, subtype, packet number, and
    field name and value. *)
Theorem convert_packet_within_int `{srd_packet_types}
    di c n fname fvalue pdata st :
  fits_int SRD_PACKET_LOCATION ->
  fits_int SRD_PACKET_FIELD ->
  0 <= c < Z.of_nat (length (annotations (decoder di))) ->
  c <= INT_MAX ->
  fits_int n ->
  all_ascii fname = true -> c_str fname = fname ->
  all_ascii fvalue = true -> c_str fvalue = fvalue ->
  convert_packet di pdata
    (Some (PyList [PyLong c; PyLong SRD_PACKET_LOCATION; PyLong n])) st
  = Ret (SRD_OK,
         set_data pdata
           (data_packet {| pkt_ann_class := c;
                           packet_output_type := SRD_PACKET_LOCATION;
                           packet_num := n;
                           field_name := None;
                           field_value := None |})) st /\
  convert_packet di pdata
    (Some (PyList [PyLong c; PyLong SRD_PACKET_FIELD; PyLong n;
                   PyUnicode fname; PyUnicode fvalue])) st
  = Ret (SRD_OK,
         set_data pdata
           (data_packet {| pkt_ann_class := c;
                           packet_output_type := SRD_PACKET_FIELD;
                           packet_num := n;
                           field_name := Some fname;
                           field_value := Some fvalue |})) st.
Proof.
  intros Hloc Hfield Hc Hmax Hn Hname Hname0 Hvalue Hvalue0.
  destruct (g_slist_nth_class _ c Hc Hmax) as [cls Hcls].
  assert (Hci : fits_int c) by (unfold fits_int, INT_MIN, INT_MAX in *; lia).
  split; unfold_goal.
  - rewrite !fits_longb_true by by apply fits_int_long.
    rewrite (to_int_fits c), Hcls by done.
    rewrite (to_int_fits SRD_PACKET_LOCATION), (to_int_fits n) by done.
    rewrite Z.eqb_refl. decided. reflexivity.
  - rewrite !fits_longb_true by by apply fits_int_long.
    rewrite (to_int_fits c), Hcls by done.
    rewrite (to_int_fits SRD_PACKET_FIELD), (to_int_fits n) by done.
    destruct (Z.eqb_spec SRD_PACKET_FIELD SRD_PACKET_LOCATION) as [E|_];
      [by destruct packet_types_differ|].
    rewrite Z.eqb_refl. decided. rewrite Hname, Hvalue.
    unfold g_strdup. by rewrite Hname0, Hvalue0.
Qed.

(** A Packet list of two elements or more, with a declared class and a
    subtype within a C [int], is rejected when the subtype is neither
    Location nor Field, and when its length is not the subtype's. *)
Theorem convert_packet_rejects `{srd_packet_types} di c t rest pdata st :
  0 <= c < Z.of_nat (length (annotations (decoder di))) ->
  c <= INT_MAX ->
  fits_int t ->
  let o := convert_packet di pdata
             (Some (PyList (PyLong c :: PyLong t :: rest))) st in
  let rejected fmt :=
    Ret (SRD_ERR_PYTHON, pdata) (logged st [ev_log SRD_LOG_ERR fmt]) in
  (t <> SRD_PACKET_LOCATION -> t <> SRD_PACKET_FIELD ->
   o = rejected "Protocol decoder %s submitted invalid sub type %d for SRD_OUTPUT_PACKET output type.") /\
  (t = SRD_PACKET_LOCATION -> length rest <> 1%nat ->
   o = rejected "Protocol decoder %s submitted SRD_PACKET_LOCATION list with %d elements instead of 3") /\
  (t = SRD_PACKET_FIELD -> length rest <> 3%nat ->
   o = rejected "Protocol decoder %s submitted SRD_PACKET_FIELD list with %d elements instead of 5").
Proof.
  intros Hc Hmax Ht o rejected. subst o rejected.
  destruct (g_slist_nth_class _ c Hc Hmax) as [cls Hcls].
  assert (Hci : fits_int c) by (unfold fits_int, INT_MIN, INT_MAX in *; lia).
  unfold_goal.
  rewrite !fits_longb_true by by apply fits_int_long.
  rewrite (to_int_fits c), Hcls, (to_int_fits t) by done.
  split; [|split].
  - intros Hloc Hfield.
    destruct (Z.eqb_spec t SRD_PACKET_LOCATION); [done|].
    by destruct (Z.eqb_spec t SRD_PACKET_FIELD).
  - intros -> Hlen. rewrite Z.eqb_refl.
    destruct (Z.eqb_spec (Z.of_nat (S (S (length rest)))) 3); [lia|done].
  - intros -> Hlen.
    destruct (Z.eqb_spec SRD_PACKET_FIELD SRD_PACKET_LOCATION) as [E|_];
      [by destruct packet_types_differ|].
    rewrite Z.eqb_refl.
    destruct (Z.eqb_spec (Z.of_nat (S (S (length rest)))) 5); [lia|done].
Qed.


(** ** From the converters to the frontend *)

(** With a frontend callback for the stream's kind, [Decoder_put] hands
    the converter's event to the callback exactly when the converter
    answers [SRD_OK]; on any other answer it stops there, and returns
    [None] all the same.  A Passthrough payload goes to the callback as
    it is, after the forwarding. *)
Theorem put_delivers_converted `{srd_packet_types} st self a di pdo c :
  put_reaches st self a di pdo ->
  srd_pd_output_callback_find (sess di) (output_type pdo) = Some c ->
  let o := Decoder_put self (Parsed a) st in
  let pdata := {| start_sample := put_start_sample a;
                  end_sample := put_end_sample a;
                  pdo := pdo; data := data_NULL |} in
  let obj := Some (put_py_data a) in
  let after (r : srd_status * srd_proto_data) (st1 : srd_state) :=
    Ret (Some PyNone)
      (if srd_status_eqb r.1 SRD_OK then logged st1 [ev_sink c r.2]
       else st1) in
  (output_type pdo = SRD_OUTPUT_ANN ->
   forall r st1,
     convert_annotation di obj pdata (logged st [put_line]) = Ret r st1 ->
     o = after r st1) /\
  (output_type pdo = SRD_OUTPUT_BINARY ->
   forall r st1,
     convert_binary di obj pdata (logged st [put_line]) = Ret r st1 ->
     o = after r st1) /\
  (output_type pdo = SRD_OUTPUT_META ->
   forall r st1,
     convert_meta pdata obj (logged st [put_line]) = Ret r st1 ->
     o = after r st1) /\
  (output_type pdo = SRD_OUTPUT_PACKET ->
   forall st0 r st1,
     send_to_stack "Sending packet %d-%d to instance %s" (next_di di)
       (put_start_sample a) (put_end_sample a) (put_py_data a)
       (logged st [put_line]) = Ret tt st0 ->
     convert_packet di pdata obj st0 = Ret r st1 ->
     o = after r st1) /\
  (output_type pdo = SRD_OUTPUT_PYTHON ->
   forall st0,
     send_to_stack "Sending %d-%d to instance %s" (next_di di)
       (put_start_sample a) (put_end_sample a) (put_py_data a)
       (logged st [put_line]) = Ret tt st0 ->
     o = Ret (Some PyNone)
           (logged st0
              [ev_sink c (set_data pdata (data_python (put_py_data a)))])).
Proof.
  intros Hreach Hcb o pdata obj after. subst o pdata obj after.
  split; [|split; [|split; [|split]]]; intros Hkind; rewrite Hkind in Hcb.
  - intros r st1 Hrun. put_begin Hreach Hkind.
    rewrite Hcb, bind_assoc, (bind_Ret _ _ _ _ _ Hrun).
    by destruct (srd_status_eqb r.1 SRD_OK).
  - intros r st1 Hrun. put_begin Hreach Hkind.
    rewrite Hcb, bind_assoc, (bind_Ret _ _ _ _ _ Hrun).
    by destruct (srd_status_eqb r.1 SRD_OK).
  - intros r st1 Hrun. put_begin Hreach Hkind.
    rewrite Hcb, bind_assoc, (bind_Ret _ _ _ _ _ Hrun).
    by destruct (srd_status_eqb r.1 SRD_OK).
  - intros st0 r st1 Hsend Hrun. put_begin Hreach Hkind.
    rewrite Hcb, bind_assoc, (bind_Ret _ _ _ _ _ Hsend).
    rewrite bind_assoc, (bind_Ret _ _ _ _ _ Hrun).
    by destruct (srd_status_eqb r.1 SRD_OK).
  - intros st0 Hsend. put_begin Hreach Hkind.
    by rewrite Hcb, bind_assoc, (bind_Ret _ _ _ _ _ Hsend).
Qed.

(** ** The converters only log *)

Lemma only_logs_refl st : only_logs st st.
Proof. split; [done|]. exists []. by rewrite app_nil_r. Qed.

Lemma only_logs_trans a b c :
  only_logs a b -> only_logs b c -> only_logs a c.
Proof.
  intros (Hd1 & l1 & Ht1 & Hl1) (Hd2 & l2 & Ht2 & Hl2). split; [congruence|].
  exists (l1 ++ l2). rewrite Ht2, Ht1, app_assoc, forallb_app, Hl1, Hl2. done.
Qed.

Lemma only_logs_calls st st' :
  only_logs st st' ->
  decode_calls (trace st') = decode_calls (trace st) /\
  sink_calls (trace st') = sink_calls (trace st).
Proof.
  intros (_ & lines & -> & Hlines).
  rewrite decode_calls_app, sink_calls_app.
  assert (decode_calls lines = [] /\ sink_calls lines = []) as [-> ->].
  { induction lines as [|e lines IH]; [done|]. simpl in Hlines.
    apply andb_true_iff in Hlines as [He Hlines].
    destruct (IH Hlines) as [Hd Hs]. destruct e; try discriminate He.
    by destruct lvl. }
  by rewrite !app_nil_r.
Qed.

Lemma only_logs_same st st' :
  di_list st' = di_list st -> trace st' = trace st -> only_logs st st'.
Proof. intros Hd Ht. split; [done|]. exists []. by rewrite app_nil_r. Qed.

Lemma logs_emit lvl fmt : frames only_logs (emit (ev_log lvl fmt)).
Proof. intros st. split; [done|]. by exists [ev_log lvl fmt]. Qed.

Lemma logs_srd_err fmt : frames only_logs (srd_err fmt).
Proof. apply logs_emit. Qed.

Lemma logs_PyErr_Set e : frames only_logs (PyErr_Set e).
Proof. intros st. by apply only_logs_same. Qed.

Lemma logs_PyErr_Occurred : frames only_logs PyErr_Occurred.
Proof. intros st. apply only_logs_refl. Qed.

Lemma logs_g_try_malloc : frames only_logs g_try_malloc.
Proof.
  intros st. unfold g_try_malloc. destruct (oom st); by apply only_logs_same.
Qed.

Create HintDb logs.
#[local] Hint Resolve logs_srd_err logs_PyErr_Set logs_PyErr_Occurred
  logs_g_try_malloc : logs.

Ltac logs_step :=
  match goal with
  | |- frames _ (ret _) => apply frames_ret, only_logs_refl
  | |- frames _ crash => apply frames_crash, only_logs_refl
  | |- frames _ (bind _ _) =>
      apply (frames_bind _ only_logs_trans); [|intros ?]
  | |- frames _ (match ?x with _ => _ end) => destruct x
  | |- frames _ (let '(_, _) := ?x in _) => destruct x
  | |- frames _ _ => solve [auto with logs]
  end.

Ltac logs := repeat logs_step.

Lemma logs_Py_Check p op : frames only_logs (Py_Check p op).
Proof. unfold Py_Check. logs. Qed.

#[local] Hint Resolve logs_Py_Check : logs.

Lemma logs_c_not c : frames only_logs c -> frames only_logs (c_not c).
Proof. intros. unfold c_not. logs. Qed.

Lemma logs_c_and c1 c2 :
  frames only_logs c1 -> frames only_logs c2 -> frames only_logs (c_and c1 c2).
Proof. intros. unfold c_and. logs. Qed.

#[local] Hint Resolve logs_c_not logs_c_and : logs.

Lemma logs_PyList_Size op : frames only_logs (PyList_Size op).
Proof. unfold PyList_Size, PyList_Check. logs. Qed.

Lemma logs_PyList_GetItem op i : frames only_logs (PyList_GetItem op i).
Proof. unfold PyList_GetItem, PyList_Check. logs. Qed.

Lemma logs_PyTuple_Size op : frames only_logs (PyTuple_Size op).
Proof. unfold PyTuple_Size, PyTuple_Check. logs. Qed.

Lemma logs_PyTuple_GetItem op i : frames only_logs (PyTuple_GetItem op i).
Proof. unfold PyTuple_GetItem, PyTuple_Check. logs. Qed.

Lemma logs_PyLong_AsLong op : frames only_logs (PyLong_AsLong op).
Proof. unfold PyLong_AsLong. logs. Qed.

Lemma logs_PyFloat_AsDouble op : frames only_logs (PyFloat_AsDouble op).
Proof. unfold PyFloat_AsDouble. logs. Qed.

Lemma logs_PyBytes_Size op : frames only_logs (PyBytes_Size op).
Proof. unfold PyBytes_Size, PyBytes_Check. logs. Qed.

Lemma logs_PyBytes_AsStringAndSize op :
  frames only_logs (PyBytes_AsStringAndSize op).
Proof. unfold PyBytes_AsStringAndSize, PyBytes_Check. logs. Qed.

Lemma logs_PyUnicode_AsASCIIString op :
  frames only_logs (PyUnicode_AsASCIIString op).
Proof. unfold PyUnicode_AsASCIIString. logs. Qed.

Lemma logs_PyBytes_AsString b : frames only_logs (PyBytes_AsString b).
Proof. unfold PyBytes_AsString. logs. Qed.

Lemma logs_py_strseq_to_char op : frames only_logs (py_strseq_to_char op).
Proof. unfold py_strseq_to_char. logs. Qed.

#[local] Hint Resolve logs_PyList_Size logs_PyList_GetItem logs_PyTuple_Size
  logs_PyTuple_GetItem logs_PyLong_AsLong logs_PyFloat_AsDouble
  logs_PyBytes_Size logs_PyBytes_AsStringAndSize
  logs_PyUnicode_AsASCIIString logs_PyBytes_AsString
  logs_py_strseq_to_char : logs.

Lemma logs_convert_annotation di obj pdata :
  frames only_logs (convert_annotation di obj pdata).
Proof.
  unfold convert_annotation, PyLong_Check, PyList_Check, PyTuple_Check,
    g_slist_nth_data.
  logs.
Qed.

Lemma logs_convert_binary di obj pdata :
  frames only_logs (convert_binary di obj pdata).
Proof.
  unfold convert_binary, PyLong_Check, PyBytes_Check, PyTuple_Check,
    g_slist_nth_data.
  logs.
Qed.

Lemma logs_convert_meta pdata obj : frames only_logs (convert_meta pdata obj).
Proof.
  unfold convert_meta, PyLong_Check, PyFloat_Check, PyLong_AsLongLong.
  logs.
Qed.

Lemma logs_convert_packet `{srd_packet_types} di pdata obj :
  frames only_logs (convert_packet di pdata obj).
Proof.
  unfold convert_packet, PyLong_Check, PyUnicode_Check, PyList_Check,
    g_slist_nth_data.
  logs.
Qed.

(** The event a converter answers with is the one it was given, but for
    the data. *)
Ltac header_leaf H :=
  first [discriminate H | injection H as <- <-; repeat split; reflexivity].

Lemma header_convert_annotation di obj pdata st r st1 :
  convert_annotation di obj pdata st = Ret r st1 -> same_header pdata r.2.
Proof.
  intros Hrun. destruct obj as [obj|]; [destruct obj|];
    unfold_run Hrun; tidy Hrun; repeat branch Hrun; header_leaf Hrun.
Qed.

Lemma header_convert_binary di obj pdata st r st1 :
  convert_binary di obj pdata st = Ret r st1 -> same_header pdata r.2.
Proof.
  intros Hrun. destruct obj as [obj|]; [destruct obj|];
    unfold_run Hrun; tidy Hrun; repeat branch Hrun; header_leaf Hrun.
Qed.

Lemma header_convert_meta pdata obj st r st1 :
  convert_meta pdata obj st = Ret r st1 -> same_header pdata r.2.
Proof.
  intros Hrun. destruct obj as [obj|]; [destruct obj|];
    unfold_run Hrun; tidy Hrun; repeat branch Hrun; header_leaf Hrun.
Qed.

Lemma header_convert_packet `{srd_packet_types} di pdata obj st r st1 :
  convert_packet di pdata obj st = Ret r st1 -> same_header pdata r.2.
Proof.
  intros Hrun. destruct obj as [obj|]; [destruct obj|];
    unfold_run Hrun; tidy Hrun; repeat branch Hrun; header_leaf Hrun.
Qed.

(** The four converters do nothing to the outside but log: whatever the
    payload and however they end, no decoder and no frontend callback is
    called and the instances stay as they are; and the event they answer
    with has the samples and the stream of the event they were given. *)
Theorem converters_only_log `{srd_packet_types} di obj pdata st :
  let inward (o : outcome (srd_status * srd_proto_data)) :=
    only_logs st (final_state o) /\
    decode_calls (trace (final_state o)) = decode_calls (trace st) /\
    sink_calls (trace (final_state o)) = sink_calls (trace st) /\
    match o with
    | Ret r _ => same_header pdata r.2
    | Crash _ => True
    end in
  inward (convert_annotation di obj pdata st) /\
  inward (convert_binary di obj pdata st) /\
  inward (convert_meta pdata obj st) /\
  inward (convert_packet di pdata obj st).
Proof.
  intros inward.
  assert (Hinward : forall conv : M (srd_status * srd_proto_data),
    frames only_logs conv ->
    (forall r st1, conv st = Ret r st1 -> same_header pdata r.2) ->
    inward (conv st)).
  { intros conv Hlogs Hheader. subst inward. cbv beta.
    destruct (only_logs_calls _ _ (Hlogs st)) as [Hd Hs].
    split; [apply Hlogs|]. split; [done|]. split; [done|].
    destruct (conv st) as [r st1|st1]; [by eapply Hheader | done]. }
  split; [|split; [|split]]; apply Hinward.
  - apply logs_convert_annotation.
  - intros *. apply header_convert_annotation.
  - apply logs_convert_binary.
  - intros *. apply header_convert_binary.
  - apply logs_convert_meta.
  - intros *. apply header_convert_meta.
  - apply logs_convert_packet.
  - intros *. apply header_convert_packet.
Qed.

(** ** All that a [put] does to the outside *)

Lemma only_logs_did st st' : only_logs st st' -> did [] [] st st'.
Proof.
  intros Hl. destruct (only_logs_calls _ _ Hl) as [Hd Hs].
  destruct Hl as [Hdi _]. unfold did. by rewrite !app_nil_r.
Qed.

Lemma did_trans f1 d1 f2 d2 a b c :
  did f1 d1 a b -> did f2 d2 b c -> did (f1 ++ f2) (d1 ++ d2) a c.
Proof.
  intros (Hi1 & Hf1 & Hd1) (Hi2 & Hf2 & Hd2).
  unfold did. rewrite Hi2, Hf2, Hd2, Hi1, Hf1, Hd1, !app_assoc. done.
Qed.

Lemma did_after_logs f d a b c :
  only_logs a b -> did f d b c -> did f d a c.
Proof.
  intros Hl Hd. exact (did_trans [] [] f d a b c (only_logs_did _ _ Hl) Hd).
Qed.

Lemma array_read_state {A} (table : list A) i st :
  final_state (array_read table i st) = st.
Proof.
  unfold array_read, wild_read.
  destruct (i <? 0); [by destruct (faults st i)|].
  destruct (table !! Z.to_nat i); [done|]. by destruct (faults st i).
Qed.

(** A converter followed by the call of the callback on [SRD_OK]: at most
    the one callback is called, on the converter's event. *)
Lemma convert_deliver (conv : M (srd_status * srd_proto_data)) c pdata st :
  frames only_logs conv ->
  (forall st0 r st1, conv st0 = Ret r st1 -> same_header pdata r.2) ->
  let st' := final_state
    (bind (bind conv (fun r => if negb (srd_status_eqb r.1 SRD_OK) then ret tt
                               else call_cb c r.2))
          (fun _ => ret (Some PyNone)) st) in
  exists d, did [] d st st' /\
            (d = [] \/ exists pd, d = [(c, pd)] /\ same_header pdata pd).
Proof.
  intros Hlogs Hheader. cbv zeta. unfold bind at 1 2.
  specialize (Hlogs st). specialize (Hheader st).
  destruct (conv st) as [r st1|st1]; simpl in Hlogs.
  - destruct (negb (srd_status_eqb r.1 SRD_OK)).
    + exists []. split; [by apply only_logs_did | by left].
    + exists [(c, r.2)]. split; [|right; eexists; split; [done|by eapply Hheader]].
      apply (did_after_logs _ _ _ _ _ Hlogs).
      unfold did, call_cb, emit, ret.
      cbn [final_state di_list trace set_trace].
      rewrite decode_calls_app, sink_calls_app. cbn. by rewrite app_nil_r.
  - exists []. split; [by apply only_logs_did | by left].
Qed.

Lemma Decoder_put_effect `{srd_packet_types} self args st :
  exists f d,
    did f d st (final_state (Decoder_put self args st)) /\
    put_may st self args f d.
Proof.
  assert (Hnone : forall st', only_logs st st' ->
    exists f d, did f d st st' /\ put_may st self args f d).
  { intros st' Hl. exists [], []. split; [by apply only_logs_did | by left]. }
  unfold Decoder_put, srd_inst_find_by_obj. unfold bind at 1.
  destruct (di_list st !! self) as [di|] eqn:Hdi;
    [|apply Hnone, (logs_emit _ _ st)].
  destruct args as [e|a]; [apply Hnone, (logs_PyErr_Set e st)|].
  destruct (g_slist_nth (pd_output di) (put_output_id a)) as [pdo|] eqn:Hpdo;
    [|apply Hnone, (logs_emit _ _ st)].
  unfold bind at 1.
  pose proof (array_read_state OUTPUT_TYPES (output_type pdo) st) as Hread.
  destruct (array_read OUTPUT_TYPES (output_type pdo) st) as [type_name st0|st0];
    simpl in Hread; subst st0; [|apply Hnone, only_logs_refl].
  unfold srd_spew at 1, emit at 1. unfold bind at 1 2.
  pose proof (logs_emit SRD_LOG_SPEW "Instance %s put %lu-%lu %s on oid %d." st)
    as Hline.
  unfold emit in Hline. simpl in Hline.
  match goal with |- context [g_try_malloc ?s] =>
    set (st1 := s) in *; pose proof (logs_g_try_malloc st1) as Hmem;
    destruct (g_try_malloc st1) as [allocated st2|st2]; simpl in Hmem end.
  2: { apply Hnone. by eapply only_logs_trans. }
  pose proof (only_logs_trans _ _ _ Hline Hmem) as Hst2. clear Hline Hmem.
  destruct allocated; cbn [negb].
  2: { apply Hnone. eapply only_logs_trans; [exact Hst2|].
       apply (logs_emit _ _ st2). }
  fold (put_pdata a pdo).
  assert (Hsome : forall st' f d,
    did f d st2 st' ->
    (f = [] /\ output_type pdo <> SRD_OUTPUT_PYTHON /\
       output_type pdo <> SRD_OUTPUT_PACKET \/
     f = put_forwarded a di /\
       (output_type pdo = SRD_OUTPUT_PYTHON \/
        output_type pdo = SRD_OUTPUT_PACKET)) ->
    (d = [] \/
     exists c pd,
       d = [(c, pd)] /\
       srd_pd_output_callback_find (sess di) (output_type pdo) = Some c /\
       same_header (put_pdata a pdo) pd) ->
    exists f d, did f d st st' /\ put_may st self (Parsed a) f d).
  { intros st' f d Hdid Hf Hd. exists f, d.
    split; [by eapply did_after_logs|]. right. by exists a, di, pdo. }
  clear Hnone.
  assert (Hdeliver : forall conv st3 f,
    frames only_logs conv ->
    (forall st0 r st1, conv st0 = Ret r st1 -> same_header (put_pdata a pdo) r.2) ->
    did f [] st2 st3 ->
    forall c, srd_pd_output_callback_find (sess di) (output_type pdo) = Some c ->
    exists d,
      did f d st2 (final_state
        (bind (bind conv (fun r => if negb (srd_status_eqb r.1 SRD_OK)
                                   then ret tt else call_cb c r.2))
              (fun _ => ret (Some PyNone)) st3)) /\
      (d = [] \/
       exists c pd,
         d = [(c, pd)] /\
         srd_pd_output_callback_find (sess di) (output_type pdo) = Some c /\
         same_header (put_pdata a pdo) pd)).
  { intros conv st3 f Hlogs Hheader Hdid c Hc.
    destruct (convert_deliver conv c (put_pdata a pdo) st3 Hlogs Hheader)
      as (d & Hd & Hshape).
    exists d. split.
    - pose proof (did_trans _ _ _ _ _ _ _ Hdid Hd) as Hall.
      by rewrite app_nil_r in Hall.
    - destruct Hshape as [->|(pd & -> & Hpd)]; [by left|].
      right. by exists c, pd. }
  assert (Hstay : did [] [] st2 st2) by apply only_logs_did, only_logs_refl.
  destruct (Z.eqb_spec (output_type pdo) SRD_OUTPUT_ANN) as [Hann|Hann].
  { assert (Hf : output_type pdo <> SRD_OUTPUT_PYTHON /\
                 output_type pdo <> SRD_OUTPUT_PACKET) by by rewrite Hann.
    destruct (srd_pd_output_callback_find (sess di) (output_type pdo))
      as [c|] eqn:Hc.
    - destruct (Hdeliver (convert_annotation di (Some (put_py_data a))
                            (put_pdata a pdo)) st2 [])
        with (c := c) as (d & Hd & Hshape); auto.
      { apply logs_convert_annotation. }
      { intros *. apply header_convert_annotation. }
      eapply Hsome; [exact Hd | by left | exact Hshape].
    - eapply Hsome; [exact Hstay | by left | by left]. }
  destruct (Z.eqb_spec (output_type pdo) SRD_OUTPUT_PYTHON) as [Hpy|Hpy].
  { rewrite bind_assoc.
    destruct (send_to_stack_spec "Sending %d-%d to instance %s" (next_di di)
                (put_start_sample a) (put_end_sample a) (put_py_data a) st2)
      as (st3 & Hrun & Hdec & Hsink & Hinst & _).
    rewrite (bind_Ret _ _ _ _ _ Hrun).
    assert (Hsent : did (put_forwarded a di) [] st2 st3).
    { unfold did. by rewrite Hinst, Hdec, Hsink, app_nil_r. }
    destruct (srd_pd_output_callback_find (sess di) (output_type pdo))
      as [c|] eqn:Hc.
    - eapply (Hsome _ _ [(c, set_data (put_pdata a pdo)
                                (data_python (put_py_data a)))]).
      + pose proof (did_trans _ _ [] [(c, set_data (put_pdata a pdo)
                                (data_python (put_py_data a)))] _ _
                      (logged st3 [ev_sink c (set_data (put_pdata a pdo)
                                (data_python (put_py_data a)))]) Hsent) as Hall.
        rewrite app_nil_r in Hall. apply Hall.
        unfold did, logged. cbn [di_list trace set_trace].
        rewrite decode_calls_app, sink_calls_app. cbn. by rewrite app_nil_r.
      + right. auto.
      + right. eexists _, _. by repeat split.
    - eapply Hsome; [exact Hsent | right; auto | by left]. }
  destruct (Z.eqb_spec (output_type pdo) SRD_OUTPUT_BINARY) as [Hbin|Hbin].
  { assert (Hf : output_type pdo <> SRD_OUTPUT_PYTHON /\
                 output_type pdo <> SRD_OUTPUT_PACKET) by by rewrite Hbin.
    destruct (srd_pd_output_callback_find (sess di) (output_type pdo))
      as [c|] eqn:Hc.
    - destruct (Hdeliver (convert_binary di (Some (put_py_data a))
                            (put_pdata a pdo)) st2 [])
        with (c := c) as (d & Hd & Hshape); auto.
      { apply logs_convert_binary. }
      { intros *. apply header_convert_binary. }
      eapply Hsome; [exact Hd | by left | exact Hshape].
    - eapply Hsome; [exact Hstay | by left | by left]. }
  destruct (Z.eqb_spec (output_type pdo) SRD_OUTPUT_META) as [Hmeta|Hmeta].
  { assert (Hf : output_type pdo <> SRD_OUTPUT_PYTHON /\
                 output_type pdo <> SRD_OUTPUT_PACKET) by by rewrite Hmeta.
    destruct (srd_pd_output_callback_find (sess di) (output_type pdo))
      as [c|] eqn:Hc.
    - destruct (Hdeliver (convert_meta (put_pdata a pdo)
                            (Some (put_py_data a))) st2 [])
        with (c := c) as (d & Hd & Hshape); auto.
      { apply logs_convert_meta. }
      { intros *. apply header_convert_meta. }
      eapply Hsome; [exact Hd | by left | exact Hshape].
    - eapply Hsome; [exact Hstay | by left | by left]. }
  destruct (Z.eqb_spec (output_type pdo) SRD_OUTPUT_PACKET) as [Hpkt|Hpkt].
  { rewrite bind_assoc.
    destruct (send_to_stack_spec "Sending packet %d-%d to instance %s"
                (next_di di) (put_start_sample a) (put_end_sample a)
                (put_py_data a) st2)
      as (st3 & Hrun & Hdec & Hsink & Hinst & _).
    rewrite (bind_Ret _ _ _ _ _ Hrun).
    assert (Hsent : did (put_forwarded a di) [] st2 st3).
    { unfold did. by rewrite Hinst, Hdec, Hsink, app_nil_r. }
    destruct (srd_pd_output_callback_find (sess di) (output_type pdo))
      as [c|] eqn:Hc.
    - destruct (Hdeliver (convert_packet di (put_pdata a pdo)
                            (Some (put_py_data a))) st3 (put_forwarded a di))
        with (c := c) as (d & Hd & Hshape); auto.
      { apply logs_convert_packet. }
      { intros *. apply header_convert_packet. }
      eapply Hsome; [exact Hd | right; auto | exact Hshape].
    - eapply Hsome; [exact Hsent | right; auto | by left]. }
  eapply Hsome; [|left; done|by left].
  apply only_logs_did. apply (logs_emit _ _ st2).
Qed.

(** A [put] never writes to the registry of instances, whatever its
    arguments and however it ends.  It calls [decode] either not at all
    or, when the instance is live and the output id names one of its
    Python or packet streams, once on each stacked instance, in order,
    with the call's samples and payload.  It calls a frontend callback
    at most once: the one registered for the type of the named stream,
    on an event that carries the call's samples and that stream. *)
Theorem put_does_no_more `{srd_packet_types} self args st :
  let st' := final_state (Decoder_put self args st) in
  di_list st' = di_list st /\
  (decode_calls (trace st') = decode_calls (trace st) \/
   exists a di pdo,
     args = Parsed a /\ di_list st !! self = Some di /\
     g_slist_nth (pd_output di) (put_output_id a) = Some pdo /\
     (output_type pdo = SRD_OUTPUT_PYTHON \/
      output_type pdo = SRD_OUTPUT_PACKET) /\
     decode_calls (trace st') = decode_calls (trace st) ++ put_forwarded a di) /\
  (sink_calls (trace st') = sink_calls (trace st) \/
   exists a di pdo c pd,
     args = Parsed a /\ di_list st !! self = Some di /\
     g_slist_nth (pd_output di) (put_output_id a) = Some pdo /\
     srd_pd_output_callback_find (sess di) (output_type pdo) = Some c /\
     sink_calls (trace st') = sink_calls (trace st) ++ [(c, pd)] /\
     same_header (put_pdata a pdo) pd).
Proof.
  cbv zeta.
  destruct (Decoder_put_effect self args st) as (f & d & Hdid & Hmay).
  destruct Hdid as (Hinst & Hdec & Hsink). split; [done|].
  destruct Hmay as [[-> ->]|(a & di & pdo & -> & Hdi & Hpdo & Hf & Hd)].
  { rewrite app_nil_r in Hdec, Hsink. by split; left. }
  split.
  - destruct Hf as [(-> & _)|[-> Hkind]].
    + left. by rewrite app_nil_r in Hdec.
    + right. by exists a, di, pdo.
  - destruct Hd as [->|(c & pd & -> & Hc & Hpd)].
    + left. by rewrite app_nil_r in Hsink.
    + right. by exists a, di, pdo, c, pd.
Qed.

Lemma bind_ret_answer {A B} (m : M A) (v : B) st :
  match bind m (fun _ => ret v) st with
  | Ret r _ => r = v
  | Crash _ => True
  end.
Proof. unfold bind. by destruct (m st). Qed.

(** [put] answers [None] or [NULL], and [NULL] only from one of its four
    early exits: the calling instance is not known, the arguments do not
    parse, the output id names no stream of the instance, or the event
    cannot be allocated.  Nothing was forwarded or delivered then, and
    but for the parse error no exception was raised: the error indicator
    is as it was on entry. *)
Theorem put_null_only_early `{srd_packet_types} self args st :
  match Decoder_put self args st with
  | Ret (Some v) st' => v = PyNone
  | Ret None st' =>
      decode_calls (trace st') = decode_calls (trace st) /\
      sink_calls (trace st') = sink_calls (trace st) /\
      (di_list st !! self = None /\ py_err st' = py_err st \/
       (exists e, args = ParseError e /\ py_err st' = Some e) \/
       (exists a di,
          args = Parsed a /\ di_list st !! self = Some di /\
          g_slist_nth (pd_output di) (put_output_id a) = None /\
          py_err st' = py_err st) \/
       (exists rest, oom st = true :: rest /\ py_err st' = py_err st))
  | Crash _ => True
  end.
Proof.
  unfold Decoder_put, srd_inst_find_by_obj. unfold bind at 1.
  destruct (di_list st !! self) as [di|] eqn:Hdi.
  2: { cbv [bind srd_dbg emit ret NULL]. cbn [trace set_trace py_err].
       rewrite decode_calls_app, sink_calls_app. cbn.
       rewrite !app_nil_r. split; [done|]. split; [done|]. by left. }
  destruct args as [e|a].
  { cbv [bind PyErr_Set ret NULL]. cbn [py_err set_py_err trace].
    split; [done|]. split; [done|]. right. left. eauto. }
  destruct (g_slist_nth (pd_output di) (put_output_id a)) as [pdo|] eqn:Hpdo.
  2: { cbv [bind srd_err emit ret NULL]. cbn [trace set_trace py_err].
       rewrite decode_calls_app, sink_calls_app. cbn.
       rewrite !app_nil_r. split; [done|]. split; [done|].
       right. right. left. by eexists _, _. }
  unfold bind at 1.
  pose proof (array_read_state OUTPUT_TYPES (output_type pdo) st) as Hread.
  destruct (array_read OUTPUT_TYPES (output_type pdo) st) as [type_name st0|st0];
    simpl in Hread; subst st0; [|done].
  unfold srd_spew at 1, emit at 1. unfold bind at 1 2.
  unfold g_try_malloc at 1. cbn [oom set_trace].
  destruct (oom st) as [|[|] rest] eqn:Hoom; cbn [negb].
  - match goal with |- context [bind ?m (fun _ => ret ?v) ?s] =>
      pose proof (bind_ret_answer m v s) as Hanswer;
      destruct (bind m (fun _ => ret v) s) as [[r|] st'|st']; by simplify_eq
    end.
  - cbv [bind srd_err emit ret NULL]. cbn [trace set_trace set_oom py_err].
    rewrite !decode_calls_app, !sink_calls_app. cbn.
    rewrite !app_nil_r. split; [done|]. split; [done|].
    right. right. right. eauto.
  - match goal with |- context [bind ?m (fun _ => ret ?v) ?s] =>
      pose proof (bind_ret_answer m v s) as Hanswer;
      destruct (bind m (fun _ => ret v) s) as [[r|] st'|st']; by simplify_eq
    end.
Qed.

(** ** All that a [register] does *)

(** [register] is all or nothing.  When it answers an object, that is
    the id of one new stream, appended to the streams of the calling
    instance and to nothing else: the id is the number of streams there
    were (as an [int]), the stream has the output type asked for, the
    calling instance as its owner and the given protocol id, or the
    instance's id when none was given; a meta stream records [int] as
    Int64 and [float] as Double, with its name and description.  When it
    answers [NULL] an exception is pending and the registry is as it
    was; nor does a crash leave a stream behind. *)
Theorem register_all_or_nothing self args st :
  match Decoder_register self args st with
  | Ret (Some v) st' =>
      exists a di pdo,
        args = Parsed a /\ di_list st !! self = Some di /\
        v = PyLong (pdo_id pdo) /\
        pdo_id pdo = to_int (g_slist_length (pd_output di)) /\
        output_type pdo = reg_output_type a /\
        pdo_di pdo = self /\
        proto_id pdo = c_str (default (inst_id di) (reg_proto_id a)) /\
        (reg_output_type a = SRD_OUTPUT_META ->
         exists t n d,
           reg_meta a = Some (PyTypeRef t, n, d) /\
           (t = PyLong_Type /\ meta_type pdo = Some G_VARIANT_TYPE_INT64 \/
            t = PyFloat_Type /\ meta_type pdo = Some G_VARIANT_TYPE_DOUBLE) /\
           meta_name pdo = Some (c_str n) /\
           meta_descr pdo = Some (c_str d)) /\
        di_list st'
          = <[self := set_pd_output di (pd_output di ++ [pdo])]> (di_list st) /\
        py_err st' = py_err st
  | Ret None st' => di_list st' = di_list st /\ is_Some (py_err st')
  | Crash st' => di_list st' = di_list st
  end.
Proof.
  unfold Decoder_register, srd_inst_find_by_obj. unfold bind at 1.
  destruct (di_list st !! self) as [di|] eqn:Hdi; [|by cbn; eauto].
  destruct args as [e|a]; [by cbn; eauto|].
  cbv zeta.
  destruct (Z.eqb_spec (reg_output_type a) SRD_OUTPUT_META) as [Hmeta|Hother].
  - destruct (reg_meta a) as [[[o n] d]|] eqn:Hm;
      cbn [fmap option_fmap option_map fst snd]; [|by cbv [crash]].
    destruct o as [| | | | | | | |t]; try (by cbv [crash]).
    destruct t; try (by cbn; eauto).
    all: cbv [bind srd_dbg emit g_try_malloc PyErr_Set ret NULL];
      cbn [oom set_trace];
      destruct (oom st) as [|[|] rest]; cbn [negb]; try (by cbn; eauto).
    all: match goal with |- context [g_slist_append _ ?p] => exists a, di, p end;
      cbn;
      (split; [done|]); (split; [done|]); (split; [done|]);
      (split; [done|]); (split; [done|]); (split; [done|]);
      (split; [done|]); (split; [|done]);
      intros _; eexists _, n, d; rewrite Hm; (split; [done|]); auto.
  - cbv [bind srd_dbg emit g_try_malloc PyErr_Set ret NULL].
    cbn [oom set_trace].
    destruct (oom st) as [|[|] rest]; cbn [negb]; try (by cbn; eauto).
    all: match goal with |- context [g_slist_append _ ?p] => exists a, di, p end;
      cbn;
      (split; [done|]); (split; [done|]); (split; [done|]);
      (split; [done|]); (split; [done|]); (split; [done|]);
      (split; [done|]); (split; [|done]); done.
Qed.

(** ** From [register] to [put] *)

(** The id [register] answers is one [put] takes: a later [put] from
    the same instance with that output id gets as far as the dispatch,
    on a stream of the registered output type, and the ids of the
    streams registered before still name the streams they named.
    (Ids are C [int]s: the instance has fewer than 2^31 streams; no
    allocation fails; a meta registration names [int] or [float].) *)
Theorem register_then_put st self di a :
  di_list st !! self = Some di ->
  oom st = [] ->
  supported a ->
  Z.of_nat (length (pd_output di)) <= INT_MAX ->
  exists id st' di' pdo,
    Decoder_register self (Parsed a) st = Ret (Some (PyLong id)) st' /\
    (forall p, put_output_id p = id -> put_reaches st' self p di' pdo) /\
    output_type pdo = reg_output_type a /\
    next_di di' = next_di di /\ sess di' = sess di /\
    decoder di' = decoder di /\
    (forall p old,
       put_reaches st self p di old -> put_reaches st' self p di' old).
Proof.
  intros Hdi Hoom Hsup Hlen.
  destruct (Decoder_register_step st self di a Hdi Hoom Hsup Hlen)
    as (pdo & st' & Hrun & Hdi' & Hoom' & Hid & Hty).
  exists (Z.of_nat (length (pd_output di))), st',
    (set_pd_output di (pd_output di ++ [pdo])), pdo.
  split; [done|]. split; [|split; [done|]].
  - intros p Hp. unfold put_reaches. rewrite Hp.
    split; [done|]. split; [|done].
    cbn [pd_output set_pd_output].
    rewrite g_slist_nth_inside.
    + rewrite Nat2Z.id, lookup_app_r by lia.
      by rewrite Nat.sub_diag.
    + rewrite length_app. simpl. lia.
    + done.
  - split; [done|]. split; [done|]. split; [done|].
    intros p old (_ & Hold & _). split; [done|]. split; [|done].
    cbn [pd_output set_pd_output].
    unfold g_slist_nth in *. by apply lookup_app_l_Some.
Qed.

Lemma Decoder_register_faults self args st :
  faults (final_state (Decoder_register self args st)) = faults st.
Proof.
  unfold Decoder_register, srd_inst_find_by_obj. unfold bind at 1.
  destruct (di_list st !! self) as [di|]; [|done].
  destruct args as [e|a]; [done|]. cbv zeta.
  assert (Hcreate : forall pdo : srd_pd_output,
    faults (final_state
      ((srd_dbg "Instance %s creating new output type %d for %s." ;;
        do allocated <- g_try_malloc;
        if negb allocated then PyErr_Set PyExc_MemoryError ;; ret NULL
        else
          (fun st0 =>
             Ret tt (set_di_list st0
                       (<[self := set_pd_output di
                                    (g_slist_append (pd_output di) pdo)]>
                          (di_list st0)))) ;;
          ret (Some (PyLong (pdo_id pdo)))) st)) = faults st).
  { intros pdo. cbv [bind srd_dbg emit g_try_malloc PyErr_Set ret NULL].
    cbn [oom set_trace]. by destruct (oom st) as [|[|] rest]. }
  destruct (reg_output_type a =? SRD_OUTPUT_META); [|apply Hcreate].
  destruct (reg_meta a) as [[[o n] d]|];
    cbn [fmap option_fmap option_map fst snd]; [|done].
  destruct o as [| | | | | | | |t]; try done.
  destruct t; try done; apply Hcreate.
Qed.

(** [register] does not check the output type: a number outside the
    five known ones is registered like any other.  A [put] on such a
    stream reads [OUTPUT_TYPES] outside its five entries for its log
    line, which is undefined behaviour.  Where that load faults, the
    [put] ends there.  Where it does not, the [put] logs its line,
    reports the type through the default case of the [switch] and
    answers [None]: nothing is forwarded, nothing delivered. *)
Theorem register_unchecked_type `{srd_packet_types} st self di a :
  di_list st !! self = Some di ->
  oom st = [] ->
  Z.of_nat (length (pd_output di)) <= INT_MAX ->
  ~ (0 <= reg_output_type a < 5) ->
  exists id st',
    Decoder_register self (Parsed a) st = Ret (Some (PyLong id)) st' /\
    forall p, put_output_id p = id ->
      let o := Decoder_put self (Parsed p) st' in
      (faults st (reg_output_type a) = true -> o = Crash st') /\
      (faults st (reg_output_type a) = false ->
       o = Ret (Some PyNone)
             (logged st'
                [put_line;
                 ev_log SRD_LOG_ERR
                   "Protocol decoder %s submitted invalid output type %d."])).
Proof.
  intros Hdi Hoom Hlen Htype.
  assert (Hsup : supported a).
  { intros Hmeta. rewrite Hmeta in Htype. unfold SRD_OUTPUT_META in Htype. lia. }
  destruct (Decoder_register_step st self di a Hdi Hoom Hsup Hlen)
    as (pdo & st' & Hrun & Hdi' & Hoom' & Hid & Hty).
  pose proof (Decoder_register_faults self (Parsed a) st) as Hfaults.
  rewrite Hrun in Hfaults. cbn [final_state] in Hfaults.
  exists (Z.of_nat (length (pd_output di))), st'. split; [done|].
  intros p Hp o. subst o.
  assert (Hnth : g_slist_nth (pd_output di ++ [pdo])
                   (Z.of_nat (length (pd_output di))) = Some pdo).
  { rewrite g_slist_nth_inside; [|rewrite length_app; simpl; lia|done].
    rewrite Nat2Z.id, lookup_app_r by lia. by rewrite Nat.sub_diag. }
  assert (Hread : array_read OUTPUT_TYPES (output_type pdo) st'
                  = wild_read (A := string) (reg_output_type a) st').
  { unfold array_read. rewrite Hty.
    destruct (Z.ltb_spec (reg_output_type a) 0) as [Hneg|Hpos]; [done|].
    rewrite (proj2 (lookup_ge_None OUTPUT_TYPES
                      (Z.to_nat (reg_output_type a)))); [done|].
    simpl. lia. }
  split; intros Hf;
    unfold Decoder_put, srd_inst_find_by_obj; unfold bind at 1;
    rewrite Hdi', Hp; cbn [pd_output set_pd_output]; rewrite Hnth;
    unfold bind at 1; rewrite Hread; unfold wild_read;
    rewrite Hfaults, Hf; [done|].
  unfold srd_spew at 1, emit at 1. unfold bind at 1 2.
  fold put_line.
  change (set_trace st' (trace st' ++ [put_line])) with (logged st' [put_line]).
  rewrite g_try_malloc_ok by exact Hoom'. cbn [negb].
  rewrite Hty.
  unfold SRD_OUTPUT_ANN, SRD_OUTPUT_PYTHON, SRD_OUTPUT_BINARY,
    SRD_OUTPUT_META, SRD_OUTPUT_PACKET.
  repeat match goal with
         | |- context [reg_output_type a =? ?k] =>
             destruct (Z.eqb_spec (reg_output_type a) k); [lia|]
         end.
  cbv [bind srd_err emit ret].
  change (set_trace ?s (trace ?s ++ ?t)) with (logged s t).
  by rewrite logged_logged.
Qed.

(** ** Payloads of the wrong shape *)

Lemma strseq_non_string members m :
  m ∈ members -> is_unicode m = false -> strseq members = None.
Proof.
  intros Hm Hno. induction members as [|x members IH]; [by apply elem_of_nil in Hm|].
  apply elem_of_cons in Hm as [<-|Hm].
  - by destruct m.
  - simpl. rewrite (IH Hm). by destruct x.
Qed.

(** The Annotation converter rejects, each time with its own error line
    and nothing else done: what is neither list nor tuple; a list that
    does not have 2 elements; a class that is no integer; and, on a
    declared class, texts that are no list (a tuple of strings included)
    or that have a member which is no string. *)
Theorem convert_annotation_rejects di obj pdata st :
  let o := convert_annotation di (Some obj) pdata st in
  let rejected fmt :=
    Ret (SRD_ERR_PYTHON, pdata) (logged st [ev_log SRD_LOG_ERR fmt]) in
  let declared c :=
    is_long c = true /\
    0 <= long_value c < Z.of_nat (length (annotations (decoder di))) /\
    long_value c <= INT_MAX in
  (is_list obj = false -> is_tuple obj = false ->
   o = rejected "Protocol decoder %s submitted %s instead of list.") /\
  (forall items, obj = PyList items -> length items <> 2%nat ->
   o = rejected "Protocol decoder %s submitted annotation list with %d elements instead of 2") /\
  (forall c texts, obj = PyList [c; texts] -> is_long c = false ->
   o = rejected "Protocol decoder %s submitted annotation list, but first element was not an integer.") /\
  (forall c texts, obj = PyList [c; texts] -> declared c ->
   is_list texts = false ->
   o = rejected "Protocol decoder %s submitted annotation list, but second element was not a list.") /\
  (forall c members m, obj = PyList [c; PyList members] -> declared c ->
   m ∈ members -> is_unicode m = false ->
   o = rejected "Protocol decoder %s submitted annotation list, but second element was malformed.").
Proof.
  intros o rejected declared. subst o rejected declared.
  assert (Hclass : forall c,
    is_long c = true /\
    0 <= long_value c < Z.of_nat (length (annotations (decoder di))) /\
    long_value c <= INT_MAX ->
    fits_longb (long_value c) = true /\
    exists cls, g_slist_nth (annotations (decoder di))
                  (to_int (long_value c)) = Some cls).
  { intros c (_ & Hc & Hmax).
    assert (Hint : fits_int (long_value c))
      by (unfold fits_int, INT_MIN, INT_MAX in *; lia).
    split; [by apply fits_longb_true, fits_int_long|].
    rewrite to_int_fits by done. by apply g_slist_nth_class. }
  split; [|split; [|split; [|split]]].
  - intros Hlist Htuple. unfold_goal. by rewrite Hlist, Htuple.
  - intros items -> Hlen. unfold_goal.
    destruct (Z.eqb_spec (Z.of_nat (length items)) 2); [lia|done].
  - intros c texts -> Hlong. unfold_goal. by rewrite Hlong.
  - intros c texts -> Hc Hlist.
    destruct (Hclass c Hc) as (Hfit & cls & Hcls). destruct Hc as (Hlong & _).
    unfold_goal. rewrite Hlong. decided. rewrite Hfit, Hcls.
    by rewrite Hlist.
  - intros c members m -> Hc Hm Hno.
    destruct (Hclass c Hc) as (Hfit & cls & Hcls). destruct Hc as (Hlong & _).
    unfold_goal. rewrite Hlong. decided. rewrite Hfit, Hcls.
    by rewrite (strseq_non_string _ _ Hm Hno).
Qed.

(** The Binary converter rejects, each time with its own error line:
    what is no tuple (a list included); a tuple that does not have 2
    elements; a class that is no integer; and, on a declared class, data
    that are no bytes.  The line for the wrong number of elements takes
    the number from [PyList_Size], which fails on the tuple: that
    rejection leaves a [SystemError] pending, the other ones leave the
    error indicator as it was. *)
Theorem convert_binary_rejects di obj pdata st :
  let o := convert_binary di (Some obj) pdata st in
  let rejected fmt :=
    Ret (SRD_ERR_PYTHON, pdata) (logged st [ev_log SRD_LOG_ERR fmt]) in
  (is_tuple obj = false ->
   o = rejected "Protocol decoder %s submitted SRD_OUTPUT_BINARY with %s instead of tuple.") /\
  (forall items, obj = PyTuple items -> length items <> 2%nat ->
   o = Ret (SRD_ERR_PYTHON, pdata)
         (logged (set_py_err st (Some PyExc_SystemError))
            [ev_log SRD_LOG_ERR
               "Protocol decoder %s submitted SRD_OUTPUT_BINARY tuple with %d elements instead of 2"])) /\
  (forall c bytes, obj = PyTuple [c; bytes] -> is_long c = false ->
   o = rejected "Protocol decoder %s submitted SRD_OUTPUT_BINARY tuple, but first element was not an integer.") /\
  (forall c bytes, obj = PyTuple [c; bytes] ->
   is_long c = true ->
   0 <= long_value c < Z.of_nat (length (binary (decoder di))) ->
   long_value c <= INT_MAX ->
   is_bytes bytes = false ->
   o = rejected "Protocol decoder %s submitted SRD_OUTPUT_BINARY tuple, but second element was not bytes.").
Proof.
  intros o rejected. subst o rejected.
  split; [|split; [|split]].
  - intros Htuple. unfold_goal. by rewrite Htuple.
  - intros items -> Hlen. unfold_goal.
    destruct (Z.eqb_spec (Z.of_nat (length items)) 2); [lia|done].
  - intros c bytes -> Hlong. unfold_goal. by rewrite Hlong.
  - intros c bytes -> Hlong Hc Hmax Hbytes.
    assert (Hint : fits_int (long_value c))
      by (unfold fits_int, INT_MIN, INT_MAX in *; lia).
    destruct (g_slist_nth_class (binary (decoder di)) _ Hc Hmax) as [cls Hcls].
    unfold_goal. rewrite Hlong. decided.
    rewrite fits_longb_true by by apply fits_int_long.
    rewrite to_int_fits by done. rewrite Hcls. by rewrite Hbytes.
Qed.

(** ** How the converters report a failure *)

Ltac report_leaf H :=
  first
    [ discriminate H
    | injection H as <- <- <-;
      let Hne := fresh "Hne" in
      intros Hne;
      first
        [ by destruct Hne
        | split; [reflexivity|];
          first [ left; split; [reflexivity|]; eexists; reflexivity
                | right; split; [reflexivity|]; split; [reflexivity|];
                  repeat match goal with
                         | E : negb ?b = _ |- _ =>
                             destruct b; try discriminate E; clear E
                         | E : oom _ = _ |- _ =>
                             progress cbn [oom set_py_err set_trace set_oom]
                               in E
                         end;
                  subst;
                  repeat match goal with
                         | E : oom _ = _ |- _ => rewrite ?E; clear E
                         end;
                  repeat first [ apply list_elem_of_here
                               | apply list_elem_of_further ] ] ] ].

Lemma report_convert_annotation di obj pdata st0 s r st1 :
  convert_annotation di obj pdata st0 = Ret (s, r) st1 ->
  s <> SRD_OK ->
  r = pdata /\
  (s = SRD_ERR_PYTHON /\
     (exists fmt, trace st1 = trace st0 ++ [ev_log SRD_LOG_ERR fmt]) \/
   s = SRD_ERR_MALLOC /\ trace st1 = trace st0 /\ true ∈ oom st0).
Proof.
  intros Hrun. destruct obj as [obj|]; [destruct obj|];
    unfold_run Hrun; tidy Hrun; repeat branch Hrun; report_leaf Hrun.
Qed.

Lemma report_convert_binary di obj pdata st0 s r st1 :
  convert_binary di obj pdata st0 = Ret (s, r) st1 ->
  s <> SRD_OK ->
  r = pdata /\
  (s = SRD_ERR_PYTHON /\
     (exists fmt, trace st1 = trace st0 ++ [ev_log SRD_LOG_ERR fmt]) \/
   s = SRD_ERR_MALLOC /\ trace st1 = trace st0 /\ true ∈ oom st0).
Proof.
  intros Hrun. destruct obj as [obj|]; [destruct obj|];
    unfold_run Hrun; tidy Hrun; repeat branch Hrun; report_leaf Hrun.
Qed.

Lemma report_convert_packet `{srd_packet_types} di obj pdata st0 s r st1 :
  convert_packet di pdata obj st0 = Ret (s, r) st1 ->
  s <> SRD_OK ->
  r = pdata /\ s = SRD_ERR_PYTHON /\
  exists fmt, trace st1 = trace st0 ++ [ev_log SRD_LOG_ERR fmt].
Proof.
  intros Hrun.
  cut (s <> SRD_OK ->
       r = pdata /\
       (s = SRD_ERR_PYTHON /\
          (exists fmt, trace st1 = trace st0 ++ [ev_log SRD_LOG_ERR fmt]) \/
        s = SRD_ERR_MALLOC /\ trace st1 = trace st0 /\ False)).
  { intros Hcut Hne. destruct (Hcut Hne) as [-> [[-> Hlog]|(_ & _ & [])]]. done. }
  destruct obj as [obj|]; [destruct obj|];
    unfold_run Hrun; tidy Hrun; repeat branch Hrun; report_leaf Hrun.
Qed.

Lemma report_convert_meta pdata obj st0 s r st1 :
  convert_meta pdata obj st0 = Ret (s, r) st1 ->
  s <> SRD_OK ->
  r = pdata /\ s = SRD_ERR_PYTHON /\ trace st1 = trace st0 /\
  is_Some (py_err st1).
Proof.
  intros Hrun.
  destruct obj as [obj|]; [destruct obj|];
    unfold_run Hrun; tidy Hrun; repeat branch Hrun;
    first [ discriminate Hrun | injection Hrun as <- <- <- ];
    intros Hne; try (by destruct Hne);
    (split; [reflexivity|]); (split; [reflexivity|]); (split; [reflexivity|]);
    first [ by eexists
          | match goal with
            | E : bool_decide _ = true |- _ =>
                by apply bool_decide_eq_true in E
            end ].
Qed.

(** A converter that does not answer [SRD_OK] leaves the event as it
    was, and says why in its own way.  The Annotation, the Binary and
    the Packet converter have logged exactly one error line by then;
    but the first two answer [SRD_ERR_MALLOC] when an allocation failed,
    and have logged nothing then.  The Meta converter never logs: its
    failures are a pending exception only. *)
Theorem converters_report_failure `{srd_packet_types} di obj pdata st0 s r st1 :
  s <> SRD_OK ->
  let logged_once :=
    exists fmt, trace st1 = trace st0 ++ [ev_log SRD_LOG_ERR fmt] in
  (convert_annotation di obj pdata st0 = Ret (s, r) st1 \/
   convert_binary di obj pdata st0 = Ret (s, r) st1 ->
   r = pdata /\
   (s = SRD_ERR_PYTHON /\ logged_once \/
    s = SRD_ERR_MALLOC /\ trace st1 = trace st0 /\ true ∈ oom st0)) /\
  (convert_packet di pdata obj st0 = Ret (s, r) st1 ->
   r = pdata /\ s = SRD_ERR_PYTHON /\ logged_once) /\
  (convert_meta pdata obj st0 = Ret (s, r) st1 ->
   r = pdata /\ s = SRD_ERR_PYTHON /\ trace st1 = trace st0 /\
   is_Some (py_err st1)).
Proof.
  intros Hne logged_once. subst logged_once. split; [|split].
  - intros [Hrun|Hrun].
    + by eapply report_convert_annotation.
    + by eapply report_convert_binary.
  - intros Hrun. by eapply report_convert_packet.
  - intros Hrun. by eapply report_convert_meta.
Qed.

(** ** Strings with a NUL, integers beyond [long] *)

Lemma c_str_cut kept tail :
  c_str kept = kept -> c_str (kept ++ String NUL tail)%string = kept.
Proof.
  induction kept as [|ch kept IH]; [done|].
  change (String ch kept ++ String NUL tail)%string
    with (String ch (kept ++ String NUL tail)%string).
  cbn [c_str].
  destruct (nat_of_ascii ch =? 0)%nat; [done|].
  intros [= Hkept]. by rewrite (IH Hkept).
Qed.

(** The name and the value of a Field packet reach the frontend as C
    strings: a string with a NUL character in it is delivered cut
    before its first NUL, without an error. *)
Theorem convert_packet_field_cut_at_nul `{srd_packet_types}
    di c n fname ftail fvalue vtail pdata st :
  fits_int SRD_PACKET_FIELD ->
  0 <= c < Z.of_nat (length (annotations (decoder di))) ->
  c <= INT_MAX ->
  fits_int n ->
  all_ascii (fname ++ String NUL ftail)%string = true ->
  all_ascii (fvalue ++ String NUL vtail)%string = true ->
  c_str fname = fname ->
  c_str fvalue = fvalue ->
  convert_packet di pdata
    (Some (PyList [PyLong c; PyLong SRD_PACKET_FIELD; PyLong n;
                   PyUnicode (fname ++ String NUL ftail)%string;
                   PyUnicode (fvalue ++ String NUL vtail)%string])) st
  = Ret (SRD_OK,
         set_data pdata
           (data_packet {| pkt_ann_class := c;
                           packet_output_type := SRD_PACKET_FIELD;
                           packet_num := n;
                           field_name := Some fname;
                           field_value := Some fvalue |})) st.
Proof.
  intros Hfield Hc Hmax Hn Hname Hvalue Hname0 Hvalue0.
  destruct (g_slist_nth_class _ c Hc Hmax) as [cls Hcls].
  assert (Hci : fits_int c) by (unfold fits_int, INT_MIN, INT_MAX in *; lia).
  unfold_goal.
  rewrite !fits_longb_true by by apply fits_int_long.
  rewrite (to_int_fits c), Hcls by done.
  rewrite (to_int_fits SRD_PACKET_FIELD), (to_int_fits n) by done.
  destruct (Z.eqb_spec SRD_PACKET_FIELD SRD_PACKET_LOCATION) as [E|_];
    [by destruct packet_types_differ|].
  rewrite Z.eqb_refl. decided. rewrite Hname, Hvalue.
  unfold g_strdup. by rewrite !c_str_cut.
Qed.

Lemma class_beyond_long {A} (l : list A) :
  Z.of_nat (length l) <= 2 ^ 31 -> g_slist_nth l (to_int (-1)) = None.
Proof.
  intros Hlen. apply g_slist_nth_outside; [|done|].
  - rewrite to_int_fits; unfold fits_int, INT_MIN, INT_MAX; lia.
  - rewrite to_int_fits by (unfold fits_int, INT_MIN, INT_MAX; lia). lia.
Qed.

(** A class index beyond a C [long] is not converted by [PyLong_AsLong],
    which answers -1 and raises [OverflowError]; no converter looks at
    the exception.  The three converters reject the payload as one of
    an unregistered class, and leave the [OverflowError] pending. *)
Theorem class_beyond_long_unregistered `{srd_packet_types}
    di c second rest pdata st :
  is_long c = true ->
  ~ fits_long (long_value c) ->
  Z.of_nat (length (annotations (decoder di))) <= 2 ^ 31 ->
  Z.of_nat (length (binary (decoder di))) <= 2 ^ 31 ->
  let rejected fmt :=
    Ret (SRD_ERR_PYTHON, pdata)
      (logged (set_py_err st (Some PyExc_OverflowError))
         [ev_log SRD_LOG_ERR fmt]) in
  convert_annotation di (Some (PyList [c; second])) pdata st
    = rejected "Protocol decoder %s submitted data to unregistered annotation class %d." /\
  convert_binary di (Some (PyTuple [c; second])) pdata st
    = rejected "Protocol decoder %s submitted SRD_OUTPUT_BINARY with unregistered binary class %d." /\
  convert_packet di pdata (Some (PyList (c :: rest))) st
    = rejected "Protocol decoder %s submitted data to unregistered annotation class %d.".
Proof.
  intros Hlong Hover Hann Hbin rejected. subst rejected.
  assert (Hno : fits_longb (long_value c) = false).
  { destruct (fits_longb (long_value c)) eqn:E; [|done].
    by apply fits_longb_spec in E. }
  split; [|split]; unfold_goal; rewrite Hlong; decided; rewrite Hno;
    by rewrite class_beyond_long.
Qed.

(** ** The theorems at work on the sample stack *)

Lemma sample_put_reaches self di id pdo py_data :
  di_list sample_st !! self = Some di ->
  g_slist_nth (pd_output di) id = Some pdo ->
  put_reaches sample_st self (sample_put id py_data) di pdo.
Proof. intros Hdi Hpdo. by repeat split. Defined.

(** A Passthrough [put] of the sample instance reaches both stacked
    decoders, in their order, although the first one's [decode] raises;
    the failure is logged.  So does a Packet [put] of the instance
    without a frontend, which returns [None] with no exception pending. *)
Lemma put_forwards_by_kind_witness :
  put_reaches sample_st 1 (sample_put 1 (PyLong 5)) sample_di
    (sample_pdo 1 SRD_OUTPUT_PYTHON None) /\
  decode_calls
    (trace (final_state
              (Decoder_put (H := sample_packet_types) 1
                 (Parsed (sample_put 1 (PyLong 5))) sample_st)))
  = [ ("modbus-1", 10, 20, PyLong 5); ("midi-1", 10, 20, PyLong 5) ] /\
  err_lines
    (trace (final_state
              (Decoder_put (H := sample_packet_types) 1
                 (Parsed (sample_put 1 (PyLong 5))) sample_st)))
  = [ "Calling %s decode(): " ] /\
  put_reaches sample_st 2 (sample_put 4 (PyList [])) silent_di
    (sample_pdo 4 SRD_OUTPUT_PACKET None) /\
  exists st1,
    Decoder_put (H := sample_packet_types) 2
      (Parsed (sample_put 4 (PyList []))) sample_st
    = Ret (Some PyNone) st1 /\
    py_err st1 = None /\
    err_lines (trace st1) = [ "Calling %s decode(): " ].
Proof.
  assert (Hreach : put_reaches sample_st 1 (sample_put 1 (PyLong 5)) sample_di
                     (sample_pdo 1 SRD_OUTPUT_PYTHON None)).
  { apply sample_put_reaches; reflexivity. }
  assert (Hpacket : put_reaches sample_st 2 (sample_put 4 (PyList []))
                      silent_di (sample_pdo 4 SRD_OUTPUT_PACKET None)).
  { apply sample_put_reaches; reflexivity. }
  split; [exact Hreach|].
  destruct (put_forwards_by_kind (H := sample_packet_types)
              _ _ _ _ _ Hreach) as (Hsent & _ & _ & Hcaught & _).
  split; [apply Hsent; left; reflexivity|].
  split; [apply Hcaught; reflexivity|].
  split; [exact Hpacket|].
  destruct (put_forwards_by_kind (H := sample_packet_types)
              _ _ _ _ _ Hpacket) as (_ & _ & _ & _ & Hloop).
  destruct (Hloop eq_refl) as (st1 & _ & Herr & Hnone & _ & Hsilent).
  exists st1. split; [apply (Hsilent eq_refl eq_refl)|].
  split; [apply Hnone; reflexivity | exact Herr].
Defined.

(** Output id 9 of an instance with six streams. *)
Lemma put_unknown_stream_id_witness :
  di_list sample_st !! 1%nat = Some sample_di /\
  fits_int 9 /\
  ~ (0 <= 9 < Z.of_nat (length (pd_output sample_di))) /\
  Decoder_put (H := sample_packet_types) 1 (Parsed (sample_put 9 PyNone))
    sample_st
  = Ret NULL
      (logged sample_st
         [ev_log SRD_LOG_ERR
            "Protocol decoder %s submitted invalid output ID %d."]).
Proof.
  assert (Hint : fits_int 9) by (unfold fits_int, INT_MIN, INT_MAX; lia).
  assert (Hout : ~ (0 <= 9 < Z.of_nat (length (pd_output sample_di))))
    by (simpl; lia).
  split; [reflexivity|]. split; [exact Hint|]. split; [exact Hout|].
  apply (put_unknown_stream_id (H := sample_packet_types) sample_st 1
           (sample_put 9 PyNone) sample_di eq_refl Hint);
    [simpl; lia | exact Hout].
Defined.


(** An annotation that is no list, put where nobody listens. *)
Lemma put_without_sink_witness :
  put_reaches sample_st 2 (sample_put 0 (PyLong 5)) silent_di
    (sample_pdo 0 SRD_OUTPUT_ANN None) /\
  Decoder_put (H := sample_packet_types) 2 (Parsed (sample_put 0 (PyLong 5)))
    sample_st
  = Ret (Some PyNone) (logged sample_st [put_line]).
Proof.
  assert (Hreach : put_reaches sample_st 2 (sample_put 0 (PyLong 5)) silent_di
                     (sample_pdo 0 SRD_OUTPUT_ANN None)).
  { apply sample_put_reaches; reflexivity. }
  split; [exact Hreach|].
  apply (proj1 (put_without_sink (H := sample_packet_types)
                  _ _ _ _ _ Hreach eq_refl)).
  left. reflexivity.
Defined.

(** Three registrations on the fresh instance: ids 0, 1, 2. *)
Lemma register_ids_dense_witness :
  let calls :=
    [ {| reg_output_type := SRD_OUTPUT_ANN; reg_proto_id := None;
         reg_meta := None |};
      {| reg_output_type := SRD_OUTPUT_PYTHON; reg_proto_id := Some "uart";
         reg_meta := None |};
      {| reg_output_type := SRD_OUTPUT_META; reg_proto_id := None;
         reg_meta := Some (PyTypeRef PyLong_Type, "bitrate", "Bitrate") |} ] in
  Forall supported calls /\
  exists st', register_each 3 calls sample_st
              = Ret [Some (PyLong 0); Some (PyLong 1); Some (PyLong 2)] st'.
Proof.
  intros calls.
  assert (Hsup : Forall supported calls).
  { repeat constructor; intros Hmeta; try discriminate Hmeta.
    exists PyLong_Type, "bitrate", "Bitrate". auto. }
  split; [exact Hsup|].
  destruct (register_ids_dense sample_st 3 fresh_di calls eq_refl eq_refl Hsup)
    as (st' & news & Hrun & _); [simpl; lia|].
  exists st'. exact Hrun.
Defined.

(** The payload 42 on the sample instance's Int64 meta stream. *)
Lemma meta_mismatch_raised_others_logged_witness :
  put_reaches sample_st 1 (sample_put 3 (PyLong 42)) sample_di
    (sample_pdo 3 SRD_OUTPUT_META (Some G_VARIANT_TYPE_INT64)) /\
  Decoder_put (H := sample_packet_types) 1 (Parsed (sample_put 3 (PyLong 42)))
    sample_st
  = Ret (Some PyNone)
      (logged sample_st
         [put_line;
          ev_sink (sample_cb SRD_OUTPUT_META)
            (set_data
               (sample_pdata
                  (sample_pdo 3 SRD_OUTPUT_META (Some G_VARIANT_TYPE_INT64)))
               (data_meta (g_variant_new_int64 42)))]).
Proof.
  assert (Hreach : put_reaches sample_st 1 (sample_put 3 (PyLong 42)) sample_di
                     (sample_pdo 3 SRD_OUTPUT_META (Some G_VARIANT_TYPE_INT64))).
  { apply sample_put_reaches; reflexivity. }
  split; [exact Hreach|].
  destruct (meta_mismatch_raised_others_logged (H := sample_packet_types)
              _ _ _ _ _ (sample_cb SRD_OUTPUT_META) Hreach eq_refl eq_refl
              eq_refl) as (Hint64 & _).
  destruct (Hint64 eq_refl) as (Hdelivered & _).
  apply Hdelivered; [reflexivity|].
  unfold fits_long, LONG_MIN, LONG_MAX. simpl. lia.
Defined.

(** C4, as stated, fails beyond 64 bits: the integral payload 2^63 on
    the Int64 meta stream is not delivered; the producer gets an
    [OverflowError]. *)
Lemma meta_int64_beyond_range_not_delivered :
  let o := Decoder_put (H := sample_packet_types) 1
             (Parsed (sample_put 3 (PyLong (2 ^ 63)))) sample_st in
  meta_type (sample_pdo 3 SRD_OUTPUT_META (Some G_VARIANT_TYPE_INT64))
    = Some G_VARIANT_TYPE_INT64 /\
  is_long (PyLong (2 ^ 63)) = true /\
  returned o = Some (Some PyNone) /\
  sink_calls (trace (final_state o)) = [] /\
  py_err (final_state o) = Some PyExc_OverflowError.
Proof. vm_compute. repeat split. Qed.

(** A tuple on the annotation converter, and class index 2^32. *)
Lemma annotation_tuple_rejected_class_wraps_witness :
  let text := PyList [PyUnicode "a"; PyUnicode "b"] in
  let pdata := sample_pdata (sample_pdo 0 SRD_OUTPUT_ANN None) in
  returned (convert_annotation sample_di (Some (PyTuple [PyLong 0; text]))
              pdata sample_st)
    = Some (SRD_ERR_PYTHON, pdata) /\
  convert_annotation sample_di (Some (PyList [PyLong (2 ^ 32); text]))
    pdata sample_st
  = Ret (SRD_OK,
         set_data pdata
           (data_annotation {| ann_class := 0; ann_text := ["a"; "b"] |}))
      sample_st.
Proof.
  intros text pdata.
  destruct (annotation_tuple_rejected_class_wraps sample_di [PyLong 0; text]
              0 ["a"; "b"] pdata sample_st)
    as ((Hrejected & _) & Hwrapped);
    [simpl; lia | unfold INT_MAX; lia | reflexivity |].
  split; [exact Hrejected | exact Hwrapped].
Defined.

(** Binary class index 2^32 with two bytes. *)
Lemma binary_class_index_wraps_witness :
  let pdata := sample_pdata (sample_pdo 2 SRD_OUTPUT_BINARY None) in
  [Byte.x01; Byte.x02] <> [] /\
  convert_binary sample_di
    (Some (PyTuple [PyLong (2 ^ 32); PyBytes [Byte.x01; Byte.x02]]))
    pdata sample_st
  = Ret (SRD_OK,
         set_data pdata
           (data_binary {| bin_class := 0; size := 2;
                           bin_data := [Byte.x01; Byte.x02] |}))
      sample_st.
Proof.
  intros pdata. split; [discriminate|].
  apply (binary_class_index_wraps sample_di 0 [Byte.x01; Byte.x02] pdata
           sample_st);
    [simpl; lia | unfold INT_MAX; lia | discriminate | reflexivity].
Defined.

(** A Field packet whose value is no ASCII, and a Location packet with
    packet number 2^32 + 7. *)
Lemma packet_field_crashes_number_wraps_witness :
  let pdata := sample_pdata (sample_pdo 4 SRD_OUTPUT_PACKET None) in
  all_ascii degrees_celsius = false /\
  (exists st',
     convert_packet (H := sample_packet_types) sample_di pdata
       (Some (PyList [PyLong 0; PyLong 1; PyLong (2 ^ 32 + 7);
                      PyUnicode "temp"; PyUnicode degrees_celsius]))
       sample_st
     = Crash st') /\
  convert_packet (H := sample_packet_types) sample_di pdata
    (Some (PyList [PyLong 0; PyLong 0; PyLong (2 ^ 32 + 7)])) sample_st
  = Ret (SRD_OK,
         set_data pdata
           (data_packet {| pkt_ann_class := 0; packet_output_type := 0;
                           packet_num := 7; field_name := None;
                           field_value := None |}))
      sample_st.
Proof.
  intros pdata. split; [reflexivity|].
  apply (packet_field_crashes_number_wraps (H := sample_packet_types)
           sample_di 0 (2 ^ 32 + 7) "temp" degrees_celsius pdata sample_st).
  - unfold fits_int, INT_MIN, INT_MAX. simpl. lia.
  - unfold fits_int, INT_MIN, INT_MAX. simpl. lia.
  - simpl. lia.
  - unfold INT_MAX. lia.
  - unfold fits_long, LONG_MIN, LONG_MAX. lia.
  - right. reflexivity.
Defined.

(** The empty list on the sample instance's packet stream. *)
Lemma put_packet_short_list_crashes_witness :
  put_reaches sample_st 1 (sample_put 4 (PyList [])) sample_di
    (sample_pdo 4 SRD_OUTPUT_PACKET None) /\
  exists st',
    Decoder_put (H := sample_packet_types) 1
      (Parsed (sample_put 4 (PyList []))) sample_st
    = Crash st'.
Proof.
  assert (Hreach : put_reaches sample_st 1 (sample_put 4 (PyList []))
                     sample_di (sample_pdo 4 SRD_OUTPUT_PACKET None)).
  { apply sample_put_reaches; reflexivity. }
  split; [exact Hreach|].
  apply (put_packet_short_list_crashes (H := sample_packet_types)
           _ _ _ _ _ (sample_cb SRD_OUTPUT_PACKET) Hreach eq_refl eq_refl).
  left. reflexivity.
Defined.

(** Class 0 with two bytes, with none, and class 1 of a decoder that
    declares one binary class. *)
Lemma convert_binary_within_int_witness :
  let pdata := sample_pdata (sample_pdo 2 SRD_OUTPUT_BINARY None) in
  fits_int 0 /\
  convert_binary sample_di
    (Some (PyTuple [PyLong 0; PyBytes [Byte.x01; Byte.x02]])) pdata sample_st
  = Ret (SRD_OK,
         set_data pdata
           (data_binary {| bin_class := 0; size := 2;
                           bin_data := [Byte.x01; Byte.x02] |}))
      sample_st.
Proof.
  intros pdata.
  assert (Hint : fits_int 0) by (unfold fits_int, INT_MIN, INT_MAX; lia).
  split; [exact Hint|].
  destruct (convert_binary_within_int sample_di (PyLong 0)
              [Byte.x01; Byte.x02] pdata sample_st eq_refl Hint)
    as (Hdelivered & _); [simpl; lia | reflexivity |].
  apply Hdelivered; [simpl; lia | discriminate].
Defined.

(** Class 1 with the text "a", "b". *)
Lemma convert_annotation_within_int_witness :
  let pdata := sample_pdata (sample_pdo 0 SRD_OUTPUT_ANN None) in
  fits_int 1 /\
  convert_annotation sample_di
    (Some (PyList [PyLong 1; PyList [PyUnicode "a"; PyUnicode "b"]]))
    pdata sample_st
  = Ret (SRD_OK,
         set_data pdata
           (data_annotation {| ann_class := 1; ann_text := ["a"; "b"] |}))
      sample_st.
Proof.
  intros pdata.
  assert (Hint : fits_int 1) by (unfold fits_int, INT_MIN, INT_MAX; lia).
  split; [exact Hint|].
  destruct (convert_annotation_within_int sample_di (PyLong 1) ["a"; "b"]
              pdata sample_st eq_refl Hint)
    as (Hdelivered & _); [simpl; lia | reflexivity |].
  apply Hdelivered. simpl; lia.
Defined.

(** The two packets of the spec's examples: packet number 7, and the
    field "name" with the value "value". *)
Lemma convert_packet_within_int_witness :
  let pdata := sample_pdata (sample_pdo 4 SRD_OUTPUT_PACKET None) in
  all_ascii "name" = true /\ c_str "value" = "value" /\
  convert_packet (H := sample_packet_types) sample_di pdata
    (Some (PyList [PyLong 1; PyLong 1; PyLong 7;
                   PyUnicode "name"; PyUnicode "value"])) sample_st
  = Ret (SRD_OK,
         set_data pdata
           (data_packet {| pkt_ann_class := 1; packet_output_type := 1;
                           packet_num := 7; field_name := Some "name";
                           field_value := Some "value" |}))
      sample_st.
Proof.
  intros pdata. split; [reflexivity|]. split; [reflexivity|].
  apply (convert_packet_within_int (H := sample_packet_types) sample_di
           1 7 "name" "value" pdata sample_st);
    try reflexivity;
    try (unfold fits_int, INT_MIN, INT_MAX; simpl; lia).
Defined.

(** Four elements for a Location packet. *)
Lemma convert_packet_rejects_witness :
  let pdata := sample_pdata (sample_pdo 4 SRD_OUTPUT_PACKET None) in
  fits_int 0 /\
  convert_packet (H := sample_packet_types) sample_di pdata
    (Some (PyList [PyLong 1; PyLong 0; PyLong 7; PyLong 8])) sample_st
  = Ret (SRD_ERR_PYTHON, pdata)
      (logged sample_st
         [ev_log SRD_LOG_ERR
            "Protocol decoder %s submitted SRD_PACKET_LOCATION list with %d elements instead of 3"]).
Proof.
  intros pdata.
  assert (Hint : fits_int 0) by (unfold fits_int, INT_MIN, INT_MAX; lia).
  split; [exact Hint|].
  destruct (convert_packet_rejects (H := sample_packet_types) sample_di
              1 0 [PyLong 7; PyLong 8] pdata sample_st)
    as (_ & Hlocation & _);
    [simpl; lia | unfold INT_MAX; lia | exact Hint |].
  apply Hlocation; [reflexivity | simpl; lia].
Defined.

(** The annotation [[1, ["a", "b"]]] put on the sample instance reaches
    the frontend as class 1 with the text "a", "b". *)
Lemma put_delivers_converted_witness :
  let a := sample_put 0 (PyList [PyLong 1; PyList [PyUnicode "a"; PyUnicode "b"]]) in
  let pdo := sample_pdo 0 SRD_OUTPUT_ANN None in
  put_reaches sample_st 1 a sample_di pdo /\
  Decoder_put (H := sample_packet_types) 1 (Parsed a) sample_st
  = Ret (Some PyNone)
      (logged (logged sample_st [put_line])
         [ev_sink (sample_cb SRD_OUTPUT_ANN)
            (set_data (sample_pdata pdo)
               (data_annotation {| ann_class := 1;
                                   ann_text := ["a"; "b"] |}))]).
Proof.
  intros a pdo.
  assert (Hreach : put_reaches sample_st 1 a sample_di pdo).
  { apply sample_put_reaches; reflexivity. }
  split; [exact Hreach|].
  destruct (put_delivers_converted (H := sample_packet_types)
              _ _ _ _ _ (sample_cb SRD_OUTPUT_ANN) Hreach eq_refl)
    as (Hann & _).
  apply (Hann eq_refl
           (SRD_OK,
            set_data (sample_pdata pdo)
              (data_annotation {| ann_class := 1; ann_text := ["a"; "b"] |}))
           (logged sample_st [put_line])).
  reflexivity.
Defined.

(** A Python output registered on the sample instance: the id answered
    is taken by [put]. *)
Lemma register_then_put_witness :
  let a := sample_register SRD_OUTPUT_PYTHON in
  supported a /\
  exists id st' di' pdo,
    Decoder_register 1 (Parsed a) sample_st = Ret (Some (PyLong id)) st' /\
    put_reaches st' 1 (sample_put id (PyLong 5)) di' pdo /\
    output_type pdo = SRD_OUTPUT_PYTHON.
Proof.
  intros a.
  assert (Hsup : supported a) by (intros Hmeta; discriminate Hmeta).
  split; [exact Hsup|].
  destruct (register_then_put sample_st 1 sample_di a eq_refl eq_refl Hsup)
    as (id & st' & di' & pdo & Hrun & Hput & Hty & _);
    [simpl; unfold INT_MAX; lia|].
  exists id, st', di', pdo.
  split; [exact Hrun|]. split; [apply Hput; reflexivity | exact Hty].
Defined.

(** An output of the type 7 registered on the fresh instance, and put:
    the word behind the table is read, and the type reported.  With the
    type 1000 the read leaves the page. *)
Lemma register_unchecked_type_witness :
  ~ (0 <= reg_output_type (sample_register 7) < 5) /\
  (exists id st',
     Decoder_register 3 (Parsed (sample_register 7)) sample_st
       = Ret (Some (PyLong id)) st' /\
     Decoder_put (H := sample_packet_types) 3
       (Parsed (sample_put id PyNone)) st'
     = Ret (Some PyNone)
         (logged st'
            [put_line;
             ev_log SRD_LOG_ERR
               "Protocol decoder %s submitted invalid output type %d."])) /\
  (exists id st',
     Decoder_register 3 (Parsed (sample_register 1000)) sample_st
       = Ret (Some (PyLong id)) st' /\
     Decoder_put (H := sample_packet_types) 3
       (Parsed (sample_put id PyNone)) st' = Crash st').
Proof.
  assert (Htype : ~ (0 <= reg_output_type (sample_register 7) < 5))
    by (simpl; lia).
  split; [exact Htype|]. split.
  - destruct (register_unchecked_type (H := sample_packet_types)
                sample_st 3 fresh_di (sample_register 7) eq_refl eq_refl)
      as (id & st' & Hrun & Hput);
      [simpl; unfold INT_MAX; lia | exact Htype |].
    exists id, st'. split; [exact Hrun|].
    apply (Hput (sample_put id PyNone) eq_refl). reflexivity.
  - destruct (register_unchecked_type (H := sample_packet_types)
                sample_st 3 fresh_di (sample_register 1000) eq_refl eq_refl)
      as (id & st' & Hrun & Hput);
      [simpl; unfold INT_MAX; lia | simpl; lia |].
    exists id, st'. split; [exact Hrun|].
    apply (Hput (sample_put id PyNone) eq_refl). reflexivity.
Defined.

(** A string as an annotation, a list as binary data, an annotation
    whose texts are a tuple. *)
Lemma convert_annotation_rejects_witness :
  let pdata := sample_pdata (sample_pdo 0 SRD_OUTPUT_ANN None) in
  convert_annotation sample_di (Some (PyUnicode "rx")) pdata sample_st
  = Ret (SRD_ERR_PYTHON, pdata)
      (logged sample_st
         [ev_log SRD_LOG_ERR
            "Protocol decoder %s submitted %s instead of list."]) /\
  convert_annotation sample_di
    (Some (PyList [PyLong 1; PyTuple [PyUnicode "a"]])) pdata sample_st
  = Ret (SRD_ERR_PYTHON, pdata)
      (logged sample_st
         [ev_log SRD_LOG_ERR
            "Protocol decoder %s submitted annotation list, but second element was not a list."]).
Proof.
  intros pdata. split.
  - apply (proj1 (convert_annotation_rejects sample_di (PyUnicode "rx")
                    pdata sample_st)); reflexivity.
  - destruct (convert_annotation_rejects sample_di
                (PyList [PyLong 1; PyTuple [PyUnicode "a"]]) pdata sample_st)
      as (_ & _ & _ & Htexts & _).
    apply (Htexts (PyLong 1) (PyTuple [PyUnicode "a"]));
      [reflexivity | | reflexivity].
    split; [reflexivity|]. split; [simpl; lia | simpl; unfold INT_MAX; lia].
Defined.

(** A tuple of three elements on the binary stream. *)
Lemma convert_binary_rejects_witness :
  let pdata := sample_pdata (sample_pdo 2 SRD_OUTPUT_BINARY None) in
  convert_binary sample_di
    (Some (PyTuple [PyLong 0; PyBytes []; PyNone])) pdata sample_st
  = Ret (SRD_ERR_PYTHON, pdata)
      (logged (set_py_err sample_st (Some PyExc_SystemError))
         [ev_log SRD_LOG_ERR
            "Protocol decoder %s submitted SRD_OUTPUT_BINARY tuple with %d elements instead of 2"]).
Proof.
  intros pdata.
  destruct (convert_binary_rejects sample_di
              (PyTuple [PyLong 0; PyBytes []; PyNone]) pdata sample_st)
    as (_ & Hlength & _).
  apply (Hlength [PyLong 0; PyBytes []; PyNone]); [reflexivity | simpl; lia].
Defined.

(** An integer as an annotation: rejected, and logged once. *)
Lemma converters_report_failure_witness :
  let pdata := sample_pdata (sample_pdo 0 SRD_OUTPUT_ANN None) in
  let st1 :=
    logged sample_st
      [ev_log SRD_LOG_ERR "Protocol decoder %s submitted %s instead of list."] in
  convert_annotation sample_di (Some (PyLong 3)) pdata sample_st
    = Ret (SRD_ERR_PYTHON, pdata) st1 /\
  exists fmt, trace st1 = trace sample_st ++ [ev_log SRD_LOG_ERR fmt].
Proof.
  intros pdata st1.
  assert (Hrun : convert_annotation sample_di (Some (PyLong 3)) pdata sample_st
                 = Ret (SRD_ERR_PYTHON, pdata) st1) by reflexivity.
  split; [exact Hrun|].
  assert (Hne : SRD_ERR_PYTHON <> SRD_OK) by discriminate.
  destruct (converters_report_failure (H := sample_packet_types) sample_di
              (Some (PyLong 3)) pdata sample_st SRD_ERR_PYTHON pdata st1 Hne)
    as (Hann & _).
  destruct (Hann (or_introl Hrun)) as (_ & [[_ Hlog]|[Hmalloc _]]);
    [exact Hlog | discriminate Hmalloc].
Defined.

(** The field ["id"] with a NUL and more behind it. *)
Lemma convert_packet_field_cut_at_nul_witness :
  let pdata := sample_pdata (sample_pdo 4 SRD_OUTPUT_PACKET None) in
  convert_packet (H := sample_packet_types) sample_di pdata
    (Some (PyList [PyLong 1; PyLong 1; PyLong 7;
                   PyUnicode ("id" ++ String NUL "x")%string;
                   PyUnicode ("7" ++ String NUL "")%string])) sample_st
  = Ret (SRD_OK,
         set_data pdata
           (data_packet {| pkt_ann_class := 1;
                           packet_output_type := 1;
                           packet_num := 7;
                           field_name := Some "id";
                           field_value := Some "7" |})) sample_st.
Proof.
  intros pdata.
  apply (convert_packet_field_cut_at_nul (H := sample_packet_types)
           sample_di 1 7 "id" "x" "7" "" pdata sample_st);
    try reflexivity;
    try (unfold fits_int, INT_MIN, INT_MAX; simpl; lia).
Defined.

(** The class 2^63 on the annotation stream. *)
Lemma class_beyond_long_unregistered_witness :
  let pdata := sample_pdata (sample_pdo 0 SRD_OUTPUT_ANN None) in
  ~ fits_long (2 ^ 63) /\
  convert_annotation sample_di
    (Some (PyList [PyLong (2 ^ 63); PyList [PyUnicode "a"]])) pdata sample_st
  = Ret (SRD_ERR_PYTHON, pdata)
      (logged (set_py_err sample_st (Some PyExc_OverflowError))
         [ev_log SRD_LOG_ERR
            "Protocol decoder %s submitted data to unregistered annotation class %d."]).
Proof.
  intros pdata.
  assert (Hover : ~ fits_long (2 ^ 63))
    by (unfold fits_long, LONG_MIN, LONG_MAX; lia).
  split; [exact Hover|].
  apply (proj1 (class_beyond_long_unregistered (H := sample_packet_types)
                  sample_di (PyLong (2 ^ 63)) (PyList [PyUnicode "a"]) []
                  pdata sample_st eq_refl Hover
                  ltac:(simpl; lia) ltac:(simpl; lia))).
Defined.
